(** * mcp_cams: the JSON-RPC dispatcher of [main.py] and its calculator tool

    A shallow embedding of [SimpleMCPCalculator] (src/main.py) together with
    the fragment of the Python runtime its control flow depends on:
    JSON-decoded values, truthiness, [dict.get], the [float] and [int]
    constructors, [float.is_integer], [repr]/[str] and the exceptions these
    raise.  Runtime behaviour follows CPython 3.11.

    Conventions.
    - A Python [str] is a Rocq [string], read as a sequence of code points
      below 256.
    - A Python [float] is an IEEE 754 binary64 number, [spec_float] with
      precision 53 and maximal exponent 1024.
    - A Python [dict] is an association list in insertion order; JSON object
      keys are strings.
    - [datetime.now().isoformat()] reads the clock; the reading is passed to
      the functions that use it as the argument [now].
    - A call to [logging] builds its message and writes it to a sink.  The
      writing is left out.  The building is modelled where the message
      formats a value of the request, since formatting can raise; messages
      that are constants or hold only the text of an exception are left
      out with the call.
    - Values are nested less deeply than the recursion limit of the
      interpreter allows. *)

From Stdlib Require Import ZArith List String Ascii Bool Lia.
From Stdlib Require Import DecimalString.
From Stdlib Require Import SpecFloat.
Import ListNotations.

Local Open Scope string_scope.
Local Open Scope Z_scope.

(* ===================================================================== *)
(** * Python values and exceptions *)
(* ===================================================================== *)

Unset Elimination Schemes.
Inductive value : Type :=
| VNone
| VBool (b : bool)
| VInt (n : Z)
| VFloat (x : spec_float)
| VStr (s : string)
| VList (l : list value)
| VDict (d : list (string * value)).
Set Elimination Schemes.

Definition dict := list (string * value).

(** The exceptions the modelled operations raise; each carries [str(e)]. *)
Inductive exn : Type :=
| ValueError (msg : string)
| TypeError (msg : string)
| OverflowError (msg : string)
| AttributeError (msg : string)
| KeyError (msg : string).

Definition exn_str (e : exn) : string :=
  match e with
  | ValueError m | TypeError m | OverflowError m | AttributeError m
  | KeyError m => m
  end.

(** Outcome of evaluating an expression: a value, or a raised exception. *)
Inductive res (A : Type) : Type :=
| Ok (a : A)
| Raise (e : exn).
Arguments Ok {A} a.
Arguments Raise {A} e.

Definition bind {A B} (c : res A) (k : A -> res B) : res B :=
  match c with
  | Ok a => k a
  | Raise e => Raise e
  end.

(** [try: body except <filter> as e: handler e]: only the exceptions
    selected by [filter] are handled, the others propagate. *)
Definition try_except {A} (body : res A) (filter : exn -> bool)
    (handler : exn -> res A) : res A :=
  match body with
  | Ok a => Ok a
  | Raise e => if filter e then handler e else Raise e
  end.

(** [except Exception]: every exception of the model derives from it. *)
Definition any_exception (_ : exn) : bool := true.

(** [except (ValueError, TypeError)] *)
Definition value_or_type_error (e : exn) : bool :=
  match e with
  | ValueError _ | TypeError _ => true
  | _ => false
  end.

Declare Scope py_scope.
Delimit Scope py_scope with py.
Notation "x <- c ;; k" := (bind c (fun x => k))
  (at level 61, c at next level, right associativity) : py_scope.
Notation "c ;; k" := (bind c (fun _ => k))
  (at level 61, right associativity) : py_scope.
Local Open Scope py_scope.

(* ===================================================================== *)
(** * Dictionaries, truthiness, type names *)
(* ===================================================================== *)

(** [d.get(k)] on a dict: the first (and, for a dict, only) binding of [k]. *)
Fixpoint dict_get (d : dict) (k : string) : option value :=
  match d with
  | [] => None
  | (k', v) :: d' => if String.eqb k' k then Some v else dict_get d' k
  end.

(** [k in d] *)
Definition dict_has (d : dict) (k : string) : bool :=
  match dict_get d k with
  | Some _ => true
  | None => false
  end.

(** [d[k] = v]: replaces the binding in place, or appends a new one. *)
Fixpoint dict_set (d : dict) (k : string) (v : value) : dict :=
  match d with
  | [] => [(k, v)]
  | (k', v') :: d' =>
      if String.eqb k' k then (k', v) :: d' else (k', v') :: dict_set d' k v
  end.

(** [d[k]]: raises [KeyError] when [k] is absent. *)
Definition dict_item (d : dict) (k : string) : res value :=
  match dict_get d k with
  | Some v => Ok v
  | None => Raise (KeyError ("'" ++ k ++ "'"))
  end.

(** [d.get(k, default)] *)
Definition dict_get_default (d : dict) (k : string) (default : value) : value :=
  match dict_get d k with
  | Some v => v
  | None => default
  end.

(** [type(v).__name__] *)
Definition type_name (v : value) : string :=
  match v with
  | VNone => "NoneType"
  | VBool _ => "bool"
  | VInt _ => "int"
  | VFloat _ => "float"
  | VStr _ => "str"
  | VList _ => "list"
  | VDict _ => "dict"
  end.

(** [v.get(k, default)] on an arbitrary value: only dicts have [get]. *)
Definition py_get (v : value) (k : string) (default : value) : res value :=
  match v with
  | VDict d => Ok (dict_get_default d k default)
  | _ => Raise (AttributeError
                  ("'" ++ type_name v ++ "' object has no attribute 'get'"))
  end.

(** [isinstance(v, dict)] *)
Definition is_dict (v : value) : bool :=
  match v with
  | VDict _ => true
  | _ => false
  end.

(** [v is None] *)
Definition is_none (v : value) : bool :=
  match v with
  | VNone => true
  | _ => false
  end.

(** [bool(v)]: the truth value tested by [if v] and [not v]. *)
Definition truthy (v : value) : bool :=
  match v with
  | VNone => false
  | VBool b => b
  | VInt n => negb (n =? 0)
  | VFloat (S754_zero _) => false
  | VFloat _ => true
  | VStr s => negb (String.eqb s "")
  | VList l => match l with [] => false | _ => true end
  | VDict d => match d with [] => false | _ => true end
  end.

(** [v == s] for a string literal [s]: among JSON-decoded values only an
    equal [str] compares equal to a [str]. *)
Definition eq_str (v : value) (s : string) : bool :=
  match v with
  | VStr t => String.eqb t s
  | _ => false
  end.

(* ===================================================================== *)
(** * Characters and decimal digits *)
(* ===================================================================== *)

Definition code (c : ascii) : Z := Z.of_N (N_of_ascii c).

Definition chr (n : Z) : ascii := ascii_of_N (Z.to_N n).

Definition newline : string := String (chr 10) "".

Definition is_digit (c : ascii) : bool := (48 <=? code c) && (code c <=? 57).

Definition digits_value (l : list ascii) : Z :=
  fold_left (fun acc c => 10 * acc + (code c - 48)) l 0.

(** The longest prefix of decimal digits, and what follows it. *)
Fixpoint span_digits (l : list ascii) : list ascii * list ascii :=
  match l with
  | c :: t =>
      if is_digit c then let '(ds, r) := span_digits t in (c :: ds, r)
      else ([], l)
  | [] => ([], [])
  end.

Fixpoint drop_zeros (l : list ascii) : list ascii :=
  match l with
  | c :: t => if code c =? 48 then drop_zeros t else l
  | [] => []
  end.

(** The decimal digits of an integer, after its sign. *)
Definition decimal (n : Z) : string := NilZero.string_of_int (Z.to_int n).

(* ===================================================================== *)
(** * binary64 floats: [float(...)], [+], [is_integer], [int(...)], [repr] *)
(* ===================================================================== *)

(** [float(s)] accepts the literals of the language reference, surrounded
    by white space, and returns the nearest float; [repr] prints the
    shortest digits that read back as the same float. *)

Module F64.

Definition prec : Z := 53.
Definition emax : Z := 1024.

Definition add : spec_float -> spec_float -> spec_float := SFadd prec emax.

(** [float(n)] for an [int]: the nearest float, ties to even; raises
    [OverflowError] when the rounded value is out of range. *)
Definition of_int (n : Z) : res spec_float :=
  match binary_normalize prec emax n 0 false with
  | S754_infinity _ => Raise (OverflowError "int too large to convert to float")
  | x => Ok x
  end.

(** The float nearest to [(-1)^neg * d * 10^e10], ties to even, with
    overflow to infinity and gradual underflow: the result of a correctly
    rounded decimal to binary conversion. *)
Definition of_decimal (neg : bool) (d e10 : Z) : spec_float :=
  match d with
  | Zpos _ =>
      if 0 <=? e10 then
        binary_normalize prec emax (cond_Zopp neg (d * 10 ^ e10)) 0 false
      else
        let '(q, e, loc) := SFdiv_core_binary prec emax d 0 (10 ^ (- e10)) 0 in
        binary_round_aux prec emax neg q e loc
  | _ => S754_zero neg
  end.

Definition take_sign (l : list ascii) : bool * list ascii :=
  match l with
  | c :: t =>
      if code c =? 45 then (true, t)
      else if code c =? 43 then (false, t)
      else (false, l)
  | [] => (false, l)
  end.

Definition max_digits : Z := 1000000000.

(** The decimal floating-point literal at the head of [l]:
    [[sign] digits [. digits] [(e|E) [sign] digits]] with at least one
    digit before the exponent; an exponent without digits is not consumed.
    Returns the value and the unread rest. *)
Definition strtod (l : list ascii) : option (spec_float * list ascii) :=
  let '(neg, l1) := take_sign l in
  let '(ip, l2) := span_digits l1 in
  let '(fp, l3) :=
    match l2 with
    | c :: t => if code c =? 46 then span_digits t else ([], l2)
    | [] => ([], l2)
    end in
  let digits := (ip ++ fp)%list in
  match digits with
  | [] => None
  | _ =>
      if (max_digits <? Z.of_nat (List.length (drop_zeros digits)))
         || (max_digits <? Z.of_nat (List.length fp))
      then None
      else
        let '(ex, l4) :=
          match l3 with
          | c :: t =>
              if (code c =? 101) || (code c =? 69) then
                let '(eneg, t1) := take_sign t in
                let '(ed, t2) := span_digits t1 in
                match ed with
                | [] => (0, l3)
                | _ => (cond_Zopp eneg (digits_value ed), t2)
                end
              else (0, l3)
          | [] => (0, l3)
          end in
        Some (of_decimal neg (digits_value digits) (ex - Z.of_nat (List.length fp)),
              l4)
  end.

Definition lower (c : ascii) : ascii :=
  if (65 <=? code c) && (code c <=? 90) then chr (code c + 32) else c.

(** [l] starts with [word], compared without regard to ASCII case. *)
Fixpoint starts_with_ci (word : string) (l : list ascii) : bool :=
  match word, l with
  | EmptyString, _ => true
  | String w word', c :: t => Ascii.eqb (lower c) w && starts_with_ci word' t
  | String _ _, [] => false
  end.

(** [[sign] (inf | infinity | nan)] at the head of [l], in any case. *)
Definition parse_inf_or_nan (l : list ascii) : option (spec_float * list ascii) :=
  let '(neg, l1) := take_sign l in
  if starts_with_ci "inf" l1 then
    let r := skipn 3 l1 in
    Some (S754_infinity neg, if starts_with_ci "inity" r then skipn 5 r else r)
  else if starts_with_ci "nan" l1 then Some (S754_nan, skipn 3 l1)
  else None.

(** White space removed around a numeric string. *)
Definition is_space (c : ascii) : bool :=
  ((9 <=? code c) && (code c <=? 13)) || (code c =? 32).

Fixpoint drop_spaces (l : list ascii) : list ascii :=
  match l with
  | c :: t => if is_space c then drop_spaces t else l
  | [] => []
  end.

(** A [str] with a character outside ASCII is first rewritten: characters
    below 127 are kept, the other white space (NEL and NBSP, below 256)
    becomes a space, and the first remaining character becomes ["?"] and
    ends the string.  No code point from 128 to 255 is a decimal digit. *)
Fixpoint to_ascii_decimal (l : list ascii) : list ascii :=
  match l with
  | c :: t =>
      if code c <? 127 then c :: to_ascii_decimal t
      else if (code c =? 133) || (code c =? 160) then chr 32 :: to_ascii_decimal t
      else [chr 63]
  | [] => []
  end.

(** Underscores are dropped; one is allowed only between two digits. *)
Fixpoint strip_underscores (prev : ascii) (l : list ascii) : option (list ascii) :=
  match l with
  | c :: t =>
      if code c =? 95 then
        if is_digit prev then strip_underscores c t else None
      else if (code prev =? 95) && negb (is_digit c) then None
      else option_map (cons c) (strip_underscores c t)
  | [] => if code prev =? 95 then None else Some []
  end.

(** [float(s)] for a [str]: [None] when [s] is not a float literal. *)
Definition of_string (s : string) : option spec_float :=
  let l := list_ascii_of_string s in
  let l := if forallb (fun c => code c <? 128) l then l else to_ascii_decimal l in
  match strip_underscores (chr 0) l with
  | None => None
  | Some l =>
      let l := rev (drop_spaces (rev (drop_spaces l))) in
      let parsed :=
        match strtod l with
        | Some r => Some r
        | None => parse_inf_or_nan l
        end in
      match parsed with
      | Some (x, []) => Some x
      | _ => None
      end
  end.

(** [x.is_integer()] *)
Definition is_integer (x : spec_float) : bool :=
  match x with
  | S754_zero _ => true
  | S754_finite _ m e => (0 <=? e) || (Zpos m mod 2 ^ (- e) =? 0)
  | S754_infinity _ | S754_nan => false
  end.

(** [int(x)]: truncation towards zero. *)
Definition to_int (x : spec_float) : res Z :=
  match x with
  | S754_zero _ => Ok 0
  | S754_finite s m e => Ok (cond_Zopp s (Z.shiftl (Zpos m) e))
  | S754_infinity _ =>
      Raise (OverflowError "cannot convert float infinity to integer")
  | S754_nan => Raise (ValueError "cannot convert float NaN to integer")
  end.

End F64.

(* ===================================================================== *)
(** * [repr] and [str] *)
(* ===================================================================== *)

Module Repr.

(** ** Floats: the shortest digit string that reads back as the float *)

(** [x >= 10^k] for the rational [x = r / s] with [s > 0]. *)
Definition ge_pow10 (r s k : Z) : bool :=
  if 0 <=? k then s * 10 ^ k <=? r else s <=? r * 10 ^ (- k).

Fixpoint adjust_up (fuel : nat) (r s k : Z) : Z :=
  match fuel with
  | O => k
  | S fuel' => if ge_pow10 r s (k + 1) then adjust_up fuel' r s (k + 1) else k
  end.

Fixpoint adjust_down (fuel : nat) (r s k : Z) : Z :=
  match fuel with
  | O => k
  | S fuel' => if ge_pow10 r s k then k else adjust_down fuel' r s (k - 1)
  end.

(** The [k] with [10^k <= r / s < 10^(k+1)], found from a base 2 estimate. *)
Definition floor_log10 (r s : Z) : Z :=
  let estimate := (Z.log2 r - Z.log2 s) * 30103 / 100000 in
  adjust_down 4 r s (adjust_up 4 r s estimate).

(** Add one in the last place of a digit string held least significant
    digit first; the flag tells that the string was all nines. *)
Fixpoint round_off (acc : list Z) : list Z * bool :=
  match acc with
  | [] => ([1], true)
  | d :: t => if d =? 9 then round_off t else ((d + 1) :: t, false)
  end.

Definition is_Lt (c : comparison) : bool := match c with Lt => true | _ => false end.
Definition is_Eq (c : comparison) : bool := match c with Eq => true | _ => false end.
Definition is_Gt (c : comparison) : bool := match c with Gt => true | _ => false end.

(** Digit generation.  [b / s] is what remains of the number, [mlo / s] and
    [mhi / s] are half the distances to the floats below and above (the
    numbers in between read back as the float; the ends do when the
    mantissa is even).  Generation stops at the first digit where the
    string, cut or rounded up, lies in that range. *)
Fixpoint gen_digits (fuel : nat) (even : bool) (b s mlo mhi : Z)
    (acc : list Z) : list Z * bool :=
  match fuel with
  | O => (acc, false)
  | S fuel' =>
      let dig := b / s in
      let b := b mod s in
      let j := b ?= mlo in
      let j1 := (b + mhi) ?= s in
      if is_Eq j1 && even then
        if dig =? 9 then round_off (9 :: acc)
        else ((if is_Gt j then dig + 1 else dig) :: acc, false)
      else if is_Lt j || (is_Eq j && even) then
        if b =? 0 then (dig :: acc, false)
        else if is_Gt j1 then
          let c := (2 * b) ?= s in
          if is_Gt c || (is_Eq c && Z.odd dig) then
            if dig =? 9 then round_off (9 :: acc) else ((dig + 1) :: acc, false)
          else (dig :: acc, false)
        else (dig :: acc, false)
      else if is_Gt j1 then
        if dig =? 9 then round_off (9 :: acc) else ((dig + 1) :: acc, false)
      else gen_digits fuel' even (10 * b) s (10 * mlo) (10 * mhi) (dig :: acc)
  end.

(** The shortest digits [d1 d2 ...] of [m * 2^e] and the position [decpt]
    of the decimal point: they read [0.d1 d2 ... * 10^decpt].  No binary64
    number needs more than 17 digits, so the fuel is never used up. *)
Definition shortest_digits (m : positive) (e : Z) : list Z * Z :=
  let mz := Zpos m in
  let boundary := (mz =? 2 ^ 52) && (-1074 <? e) in
  let f := if boundary then 4 else 2 in
  let r0 := if 0 <=? e then f * mz * 2 ^ e else f * mz in
  let s0 := if 0 <=? e then f else f * 2 ^ (- e) in
  let mlo0 := if 0 <=? e then 2 ^ e else 1 in
  let mhi0 := if boundary then 2 * mlo0 else mlo0 in
  let k := floor_log10 r0 s0 in
  let up := 10 ^ (- k) in
  let '(acc, carry) :=
    if 0 <=? k then gen_digits 20 (Z.even mz) r0 (s0 * 10 ^ k) mlo0 mhi0 []
    else gen_digits 20 (Z.even mz) (r0 * up) s0 (mlo0 * up) (mhi0 * up) [] in
  (rev acc, if carry then k + 2 else k + 1).

Definition digit_char (d : Z) : ascii := chr (48 + d).

Definition digits_string (ds : list Z) : string :=
  string_of_list_ascii (map digit_char ds).

Fixpoint zeros (n : nat) : string :=
  match n with
  | O => ""
  | S n' => "0" ++ zeros n'
  end.

(** The exponent as printed by [%+.02d]. *)
Definition exponent_string (e : Z) : string :=
  let a := Z.abs e in
  (if e <? 0 then "-" else "+") ++ (if a <? 10 then "0" else "") ++ decimal a.

Definition finite_string (ds : list Z) (decpt : Z) : string :=
  let n := Z.of_nat (List.length ds) in
  if (decpt <=? -4) || (16 <? decpt) then
    match ds with
    | [] => ""
    | d :: [] => digits_string [d] ++ "e" ++ exponent_string (decpt - 1)
    | d :: t =>
        digits_string [d] ++ "." ++ digits_string t ++ "e"
          ++ exponent_string (decpt - 1)
    end
  else if decpt <=? 0 then
    "0." ++ zeros (Z.to_nat (- decpt)) ++ digits_string ds
  else if n <=? decpt then
    digits_string ds ++ zeros (Z.to_nat (decpt - n)) ++ ".0"
  else
    digits_string (firstn (Z.to_nat decpt) ds) ++ "."
      ++ digits_string (skipn (Z.to_nat decpt) ds).

(** [repr(x)] for a [float] *)
Definition repr_float (x : spec_float) : string :=
  match x with
  | S754_nan => "nan"
  | S754_infinity s => if s then "-inf" else "inf"
  | S754_zero s => if s then "-0.0" else "0.0"
  | S754_finite s m e =>
      let '(ds, decpt) := shortest_digits m e in
      (if s then "-" else "") ++ finite_string ds decpt
  end.

(** ** Strings *)

Definition hex_digit (n : Z) : ascii :=
  if n <? 10 then chr (48 + n) else chr (87 + n).

Fixpoint contains_char (n : Z) (s : string) : bool :=
  match s with
  | EmptyString => false
  | String c s' => (code c =? n) || contains_char n s'
  end.

(** Code points below 256 that [repr] writes as an escape. *)
Definition unprintable (n : Z) : bool :=
  (n <? 32) || ((127 <=? n) && (n <=? 160)) || (n =? 173).

Fixpoint escape (quote : Z) (s : string) : string :=
  match s with
  | EmptyString => ""
  | String c s' =>
      let n := code c in
      (if (n =? quote) || (n =? 92) then String (chr 92) (String c "")
       else if n =? 9 then String (chr 92) "t"
       else if n =? 10 then String (chr 92) "n"
       else if n =? 13 then String (chr 92) "r"
       else if unprintable n then
         String (chr 92)
           (String "x" (String (hex_digit (n / 16)) (String (hex_digit (n mod 16)) "")))
       else String c "")
      ++ escape quote s'
  end.

(** [repr(s)] for a [str]: single quotes, unless [s] has a single quote
    and no double quote. *)
Definition repr_str (s : string) : string :=
  let quote := if contains_char 39 s && negb (contains_char 34 s) then 34 else 39 in
  String (chr quote) (escape quote s) ++ String (chr quote) "".

(** ** Integers *)

(** The conversion of an [int] to a string raises [ValueError] when the
    number has more than 4300 digits, that is from [10^4300] on.  The first
    test below follows from the second, [10^4300] being above [2^14284];
    it spares the computation of the power for the numbers of every day. *)
Definition exceeds_str_digits (n : Z) : bool :=
  (14284 <=? Z.log2 (Z.abs n)) && (10 ^ 4300 <=? Z.abs n).

Definition str_digits_error : exn :=
  ValueError
    "Exceeds the limit (4300 digits) for integer string conversion; use sys.set_int_max_str_digits() to increase the limit".

(** [repr(n)] for an [int] *)
Definition repr_int (n : Z) : res string :=
  if exceeds_str_digits n then Raise str_digits_error else Ok (decimal n).

(** ** Values *)

(** [repr(v)]: the elements of a list or dict are converted in order, and
    the first conversion that raises ends the whole. *)
Fixpoint repr (v : value) : res string :=
  match v with
  | VNone => Ok "None"
  | VBool b => Ok (if b then "True" else "False")
  | VInt n => repr_int n
  | VFloat x => Ok (repr_float x)
  | VStr s => Ok (repr_str s)
  | VList l =>
      inside <-
        (fix items (l : list value) : res string :=
           match l with
           | [] => Ok ""
           | x :: [] => repr x
           | x :: t => first <- repr x ;; rest <- items t ;;
                       Ok (first ++ ", " ++ rest)
           end) l ;;
      Ok ("[" ++ inside ++ "]")
  | VDict d =>
      inside <-
        (fix items (d : list (string * value)) : res string :=
           match d with
           | [] => Ok ""
           | (k, x) :: [] => first <- repr x ;; Ok (repr_str k ++ ": " ++ first)
           | (k, x) :: t => first <- repr x ;; rest <- items t ;;
                            Ok (repr_str k ++ ": " ++ first ++ ", " ++ rest)
           end) d ;;
      Ok ("{" ++ inside ++ "}")
  end.

(** [str(v)], which is also what an f-string field [{v}] expands to. *)
Definition str (v : value) : res string :=
  match v with
  | VStr s => Ok s
  | _ => repr v
  end.

End Repr.

(** [float(v)] *)
Definition py_float (v : value) : res spec_float :=
  match v with
  | VFloat x => Ok x
  | VInt n => F64.of_int n
  | VBool b => F64.of_int (if b then 1 else 0)
  | VStr s =>
      match F64.of_string s with
      | Some x => Ok x
      | None =>
          Raise (ValueError
                   ("could not convert string to float: " ++ Repr.repr_str s))
      end
  | VNone | VList _ | VDict _ =>
      Raise (TypeError
               ("float() argument must be a string or a real number, not '"
                  ++ type_name v ++ "'"))
  end.

(* ===================================================================== *)
(** * [class SimpleMCPCalculator] *)
(* ===================================================================== *)

Module SimpleMCPCalculator.

Import Repr.

(** The [error=] argument of [create_response]: [None], or the dict the
    caller builds. *)
Definition error_arg := option dict.

(** [create_response(self, request_id, result=None, error=None)] *)
Definition create_response (request_id : value) (result : value)
    (error : error_arg) : dict :=
  let response :=
    [("jsonrpc", VStr "2.0");
     ("id", if negb (is_none request_id) then request_id else VStr "unknown")] in
  let with_result :=
    dict_set response "result"
      (if negb (is_none result) then result else VDict []) in
  match error with
  | Some err =>
      if truthy (VDict err) then
        dict_set response "error"
          (VDict [("code", dict_get_default err "code" (VInt (-32603)));
                  ("message", dict_get_default err "message" (VStr "Internal error"));
                  ("data", dict_get_default err "data" VNone)])
      else with_result
  | None => with_result
  end.

(** [add_numbers(self, num1, num2)] *)
Definition add_numbers (now : string) (num1 num2 : value) : res dict :=
  try_except
    (n1 <- py_float num1 ;;
     n2 <- py_float num2 ;;
     let result := F64.add n1 n2 in
     result <- (if F64.is_integer result
                then z <- F64.to_int result ;; Ok (VInt z)
                else Ok (VFloat result)) ;;
     Ok [("number1", VFloat n1);
         ("number2", VFloat n2);
         ("result", result);
         ("operation", VStr "addition");
         ("timestamp", VStr now)])
    value_or_type_error
    (fun e =>
       Ok [("number1", num1);
           ("number2", num2);
           ("error", VStr ("Invalid numbers provided: " ++ exn_str e));
           ("operation", VStr "addition");
           ("timestamp", VStr now)]).

(** [handle_initialize(self, request_id, params)] *)
Definition handle_initialize (request_id params : value) : res dict :=
  protocol_version <- py_get params "protocolVersion" VNone ;;
  if negb (truthy protocol_version) then
    Ok (create_response request_id VNone
          (Some [("code", VInt (-32602));
                 ("message", VStr "Invalid params: protocolVersion is required")]))
  else
    let result :=
      VDict [("protocolVersion", protocol_version);
             ("capabilities",
              VDict [("tools", VDict []);
                     ("resources", VDict []);
                     ("prompts", VDict [])]);
             ("serverInfo",
              VDict [("name", VStr "Simple MCP Calculator");
                     ("version", VStr "1.0.0");
                     ("description",
                      VStr "Simple calculator that adds two numbers")])] in
    Ok (create_response request_id result None).

(** The list [tools] of [handle_tools_list]. *)
Definition tools : value :=
  VList
    [VDict
       [("name", VStr "add_numbers");
        ("description", VStr "Add two numbers together");
        ("inputSchema",
         VDict
           [("type", VStr "object");
            ("properties",
             VDict
               [("number1",
                 VDict [("type", VStr "number");
                        ("description", VStr "First number to add")]);
                ("number2",
                 VDict [("type", VStr "number");
                        ("description", VStr "Second number to add")])]);
            ("required", VList [VStr "number1"; VStr "number2"])])]].

(** [handle_tools_list(self, request_id, params)] *)
Definition handle_tools_list (request_id params : value) : res dict :=
  Ok (create_response request_id (VDict [("tools", tools)]) None).

(** [logging.info(message)] and its siblings: the message is built, which
    can raise; writing it to the log is outside the model. *)
Definition log (message : res string) : res unit :=
  message ;; Ok tt.

(** The two f-strings bound to [result_text] in [handle_tools_call], given
    their fields as strings. *)
Definition error_text (number1 number2 error timestamp : string) : string :=
  "Addition Error:" ++ newline
    ++ "Number 1: " ++ number1 ++ newline
    ++ "Number 2: " ++ number2 ++ newline
    ++ "Error: " ++ error ++ newline
    ++ "Timestamp: " ++ timestamp.

Definition success_text (number1 number2 result timestamp : string) : string :=
  "Addition Result:" ++ newline
    ++ number1 ++ " + " ++ number2 ++ " = " ++ result ++ newline
    ++ "Timestamp: " ++ timestamp.

(** The fields of an f-string are looked up and converted from left to
    right. *)
Definition result_text (calculation_result : dict) : res string :=
  if dict_has calculation_result "error" then
    number1 <- dict_item calculation_result "number1" ;;
    number1 <- str number1 ;;
    number2 <- dict_item calculation_result "number2" ;;
    number2 <- str number2 ;;
    error <- dict_item calculation_result "error" ;;
    error <- str error ;;
    timestamp <- dict_item calculation_result "timestamp" ;;
    timestamp <- str timestamp ;;
    Ok (error_text number1 number2 error timestamp)
  else
    number1 <- dict_item calculation_result "number1" ;;
    number1 <- str number1 ;;
    number2 <- dict_item calculation_result "number2" ;;
    number2 <- str number2 ;;
    result <- dict_item calculation_result "result" ;;
    result <- str result ;;
    timestamp <- dict_item calculation_result "timestamp" ;;
    timestamp <- str timestamp ;;
    Ok (success_text number1 number2 result timestamp).

(** The [result] dict that [handle_tools_call] wraps an outcome into. *)
Definition tool_result (text : string) (calculation_result : dict) : value :=
  VDict [("content", VList [VDict [("type", VStr "text"); ("text", VStr text)]]);
         ("isError", VBool (dict_has calculation_result "error"))].

Definition internal_error (e : exn) : error_arg :=
  Some [("code", VInt (-32603));
        ("message", VStr ("Internal error: " ++ exn_str e))].

(** The body of the [try] statement of [handle_tools_call]. *)
Definition call_tool (now : string) (request_id tool_name arguments : value)
    : res dict :=
  if eq_str tool_name "add_numbers" then
    number1 <- py_get arguments "number1" VNone ;;
    number2 <- py_get arguments "number2" VNone ;;
    if is_none number1 || is_none number2 then
      Ok (create_response request_id VNone
            (Some [("code", VInt (-32602));
                   ("message", VStr "Both number1 and number2 are required")]))
    else
      calculation_result <- add_numbers now number1 number2 ;;
      text <- result_text calculation_result ;;
      Ok (create_response request_id (tool_result text calculation_result) None)
  else
    name <- str tool_name ;;
    Ok (create_response request_id VNone
          (Some [("code", VInt (-32601));
                 ("message", VStr ("Unknown tool: " ++ name))])).

(** [handle_tools_call(self, request_id, params)] *)
Definition handle_tools_call (now : string) (request_id params : value)
    : res dict :=
  match params with
  | VDict p =>
      let tool_name := dict_get_default p "name" VNone in
      let arguments := dict_get_default p "arguments" (VDict []) in
      if negb (truthy tool_name) then
        Ok (create_response request_id VNone
              (Some [("code", VInt (-32602));
                     ("message", VStr "Invalid params: 'name' is required")]))
      else
        log (name <- str tool_name ;;
             Ok ("Handling tools/call request for: " ++ name)) ;;
        try_except (call_tool now request_id tool_name arguments)
          any_exception
          (fun e =>
             log (name <- str tool_name ;;
                  Ok ("Error executing tool " ++ name ++ ": " ++ exn_str e)) ;;
             Ok (create_response request_id VNone (internal_error e)))
  | _ =>
      Ok (create_response request_id VNone
            (Some [("code", VInt (-32602));
                   ("message", VStr "Invalid params: must be an object")]))
  end.

(** The body of the [try] statement of [handle_request]. *)
Definition dispatch (now : string) (method request_id params : value)
    : res dict :=
  if eq_str method "initialize" then handle_initialize request_id params
  else if eq_str method "tools/list" then handle_tools_list request_id params
  else if eq_str method "tools/call" then handle_tools_call now request_id params
  else
    log (name <- str method ;; Ok ("Unknown method: " ++ name)) ;;
    name <- str method ;;
    Ok (create_response request_id VNone
          (Some [("code", VInt (-32601));
                 ("message", VStr ("Method not found: " ++ name))])).

(** [handle_request(self, request)] *)
Definition handle_request (now : string) (request : value) : res dict :=
  match request with
  | VDict r =>
      let jsonrpc := dict_get_default r "jsonrpc" VNone in
      if negb (eq_str jsonrpc "2.0") then
        Ok (create_response (dict_get_default r "id" VNone) VNone
              (Some [("code", VInt (-32600));
                     ("message", VStr "Invalid Request: jsonrpc must be '2.0'")]))
      else
        let method := dict_get_default r "method" VNone in
        if negb (truthy method) then
          Ok (create_response (dict_get_default r "id" VNone) VNone
                (Some [("code", VInt (-32600));
                       ("message", VStr "Invalid Request: 'method' is required")]))
        else
          let params := dict_get_default r "params" (VDict []) in
          let request_id := dict_get_default r "id" VNone in
          log (name <- str method ;;
               id <- str request_id ;;
               Ok ("Processing MCP request: " ++ name ++ " (ID: " ++ id ++ ")")) ;;
          try_except (dispatch now method request_id params)
            any_exception
            (fun e =>
               log (name <- str method ;;
                    Ok ("Error handling request " ++ name ++ ": " ++ exn_str e)) ;;
               Ok (create_response request_id VNone (internal_error e)))
  | _ =>
      Ok (create_response VNone VNone
            (Some [("code", VInt (-32700));
                   ("message", VStr "Parse error: request must be an object")]))
  end.

End SimpleMCPCalculator.

Import SimpleMCPCalculator.

(* ===================================================================== *)
(** * The transport loop [main] *)
(* ===================================================================== *)

(** [s.strip()]: white space, among the code points below 256, is
    9 to 13, 28 to 32, 133 and 160. *)
Definition is_whitespace (c : ascii) : bool :=
  ((9 <=? code c) && (code c <=? 13))
  || ((28 <=? code c) && (code c <=? 32))
  || (code c =? 133) || (code c =? 160).

Fixpoint lstrip (l : list ascii) : list ascii :=
  match l with
  | c :: t => if is_whitespace c then lstrip t else l
  | [] => []
  end.

Definition strip (s : string) : string :=
  string_of_list_ascii (rev (lstrip (rev (lstrip (list_ascii_of_string s))))).

(** What [json.loads(line)] does: it returns a value, raises
    [json.JSONDecodeError], or raises another exception with message
    [msg]. *)
Inductive loaded : Type :=
| Decoded (request : value)
| DecodeError (msg : string)
| OtherError (msg : string).

(** The two responses [main] builds by hand. *)
Definition parse_error_response : dict :=
  [("jsonrpc", VStr "2.0");
   ("id", VNone);
   ("error", VDict [("code", VInt (-32700)); ("message", VStr "Parse error")])].

Definition fatal_error_response (msg : string) : dict :=
  [("jsonrpc", VStr "2.0");
   ("id", VNone);
   ("error",
    VDict [("code", VInt (-32603));
           ("message", VStr ("Internal error: " ++ msg))])].

Section Transport.

(** [json.loads] and [json.dumps(obj, ensure_ascii=flag)] of the standard
    library.  Serializing a response and printing the line are taken to
    succeed: [print] failing on a string that the encoding of the output
    cannot represent is outside the model, whose strings hold code points
    below 256. *)
Variable json_loads : string -> loaded.
Variable json_dumps : bool -> dict -> string.

(** The [try] statement of the loop body, for a stripped line that is not
    empty: the line that is printed. *)
Definition answer_line (now line : string) : string :=
  match json_loads line with
  | Decoded request =>
      match handle_request now request with
      | Ok response => json_dumps false response
      | Raise e => json_dumps true (fatal_error_response (exn_str e))
      end
  | DecodeError _ => json_dumps true parse_error_response
  | OtherError msg => json_dumps true (fatal_error_response msg)
  end.

(** [main()]: [stdin] holds what the successive calls of [readline]
    return, each with the clock reading while the line is handled; after
    the last element [readline] returns the empty string, the end of
    input.  The result is the list of lines printed. *)
Fixpoint main (stdin : list (string * string)) : list string :=
  match stdin with
  | [] => []
  | (line, now) :: rest =>
      if String.eqb line "" then []
      else
        let line := strip line in
        if String.eqb line "" then main rest
        else answer_line now line :: main rest
  end.

End Transport.

(** ** Reading a response *)

(** [response["error"]["code"]] and [response["error"]["message"]] *)
Definition error_field (response : dict) (k : string) : option value :=
  match dict_get response "error" with
  | Some (VDict e) => dict_get e k
  | _ => None
  end.

(** [response["result"][k]] *)
Definition result_field (response : dict) (k : string) : option value :=
  match dict_get response "result" with
  | Some (VDict e) => dict_get e k
  | _ => None
  end.

(** [s.startswith(needle)] and [needle in s] for strings *)
Fixpoint starts_with (needle s : string) : bool :=
  match needle, s with
  | EmptyString, _ => true
  | String a needle', String b s' => Ascii.eqb a b && starts_with needle' s'
  | String _ _, EmptyString => false
  end.

Fixpoint contains (needle s : string) : bool :=
  starts_with needle s
  || match s with
     | EmptyString => false
     | String _ s' => contains needle s'
     end.

(* ===================================================================== *)
(** * Vocabulary of the statements *)
(* ===================================================================== *)

(** The shape every response has: version ["2.0"], and exactly one of the
    keys ["result"] and ["error"]. *)
Definition well_formed (response : dict) : Prop :=
  dict_get response "jsonrpc" = Some (VStr "2.0")
  /\ xorb (dict_has response "result") (dict_has response "error") = true.

(** An outcome that, when it is a value, was built by [create_response]. *)
Inductive built : res dict -> Prop :=
| built_ok request_id result error :
    built (Ok (create_response request_id result error))
| built_raise e : built (Raise e).

#[local] Hint Constructors built : core.

(** The envelope checks of [handle_request]: what it dispatches on when the
    request is an object with version ["2.0"] and a method. *)
Definition accepted (request : value) : option (value * value * value) :=
  match request with
  | VDict r =>
      if eq_str (dict_get_default r "jsonrpc" VNone) "2.0"
         && truthy (dict_get_default r "method" VNone)
      then Some (dict_get_default r "method" VNone,
                 dict_get_default r "id" VNone,
                 dict_get_default r "params" (VDict []))
      else None
  | _ => None
  end.

(** The float [x] is exactly the integer [z]:
    [(-1)^s * m * 2^e = z], with the power of two moved to the side where
    its exponent is not negative. *)
Definition is_value_of (x : spec_float) (z : Z) : Prop :=
  match x with
  | S754_zero _ => z = 0
  | S754_finite s m e =>
      cond_Zopp s (Zpos m) * 2 ^ Z.max e 0 = z * 2 ^ Z.max (- e) 0
  | S754_infinity _ | S754_nan => False
  end.

(** The [result] field computed from the sum [s]. *)
Definition normalized (s : spec_float) (r : value) : Prop :=
  (exists z, F64.is_integer s = true /\ is_value_of s z /\ r = VInt z)
  \/ (F64.is_integer s = false /\ r = VFloat s).

(** The two dicts [add_numbers] returns. *)
Definition calculation (now : string) (n1 n2 : spec_float) (r : value) : dict :=
  [("number1", VFloat n1); ("number2", VFloat n2); ("result", r);
   ("operation", VStr "addition"); ("timestamp", VStr now)].

Definition failed_calculation (now : string) (num1 num2 : value) (e : exn) : dict :=
  [("number1", num1); ("number2", num2);
   ("error", VStr ("Invalid numbers provided: " ++ exn_str e));
   ("operation", VStr "addition"); ("timestamp", VStr now)].

(** The float 2.5 *)
Definition two_and_a_half : spec_float := S754_finite false 5629499534213120 (-51).

(** [float(v)] succeeds / fails with one of the exceptions [add_numbers]
    handles. *)
Definition convertible (v : value) : bool :=
  match py_float v with
  | Ok _ => true
  | Raise _ => false
  end.

Definition unparseable (v : value) : bool :=
  match py_float v with
  | Ok _ => false
  | Raise e => value_or_type_error e
  end.

(** The fixed part of the result of [initialize]. *)
Definition capabilities : value :=
  VDict [("tools", VDict []); ("resources", VDict []); ("prompts", VDict [])].

Definition server_info : value :=
  VDict [("name", VStr "Simple MCP Calculator");
         ("version", VStr "1.0.0");
         ("description", VStr "Simple calculator that adds two numbers")].

(** The id a request carries: [request.get("id")] when it is a mapping. *)
Definition request_id_of (request : value) : value :=
  match request with
  | VDict r => dict_get_default r "id" VNone
  | _ => VNone
  end.

(** The error codes that appear in the source. *)
Definition standard_codes : list Z := [-32700; -32600; -32601; -32602; -32603].

(** The responses the handlers build for a request with id [request_id]:
    a success whose result is a mapping, or an error made of one of the
    codes above and a message. *)
Inductive response_to (request_id : value) : dict -> Prop :=
| success_response result :
    response_to request_id (create_response request_id (VDict result) None)
| error_response code message :
    In code standard_codes ->
    response_to request_id
      (create_response request_id VNone
         (Some [("code", VInt code); ("message", VStr message)])).

Definition answers (request_id : value) (outcome : res dict) : Prop :=
  match outcome with
  | Ok response => response_to request_id response
  | Raise _ => True
  end.

(** The names advertised by a tool listing: [[t["name"] for t in tools]]. *)
Definition listed_names (listing : value) : list value :=
  match listing with
  | VList l =>
      map (fun t => match t with
                    | VDict d => dict_get_default d "name" VNone
                    | _ => VNone
                    end) l
  | _ => []
  end.

(** The number of binary digits of a positive integer. *)
Definition bits (n : Z) : Z := Z.log2 n + 1.

(** The binary64 float equal to the integer [n], for [|n| < 2^53]: the
    mantissa is [|n|] shifted to 53 digits. *)
Definition canonical (neg : bool) (n : Z) : spec_float :=
  S754_finite neg (Z.to_pos (n * 2 ^ (53 - bits n))) (bits n - 53).

Definition float_of_int (n : Z) : spec_float :=
  match n with
  | 0 => S754_zero false
  | Zpos _ => canonical false n
  | Zneg _ => canonical true (- n)
  end.

(** The lines [main] reads before the end of input. *)
Fixpoint before_eof (stdin : list (string * string)) : list (string * string) :=
  match stdin with
  | [] => []
  | (line, now) :: rest =>
      if String.eqb line "" then [] else (line, now) :: before_eof rest
  end.

(** A line with something else than white space. *)
Definition is_blank (entry : string * string) : bool :=
  String.eqb (strip (fst entry)) "".

(** Stand-ins for [json.loads] and [json.dumps] in examples of the loop:
    a decoder that knows the line [[1, 2]] and rejects the rest, and the
    Python rendering of an object instead of its JSON text. *)
Definition sample_loads (line : string) : loaded :=
  if String.eqb line "[1, 2]" then Decoded (VList [VInt 1; VInt 2])
  else DecodeError "Expecting value".

Definition sample_dumps (ensure_ascii : bool) (object : dict) : string :=
  match Repr.repr (VDict object) with
  | Ok text => text
  | Raise _ => ""
  end.

(** What a [try] whose handler answers every exception with the internal
    error leaves: the response of the body, or that error. *)
Definition caught (request_id : value) (body : res dict) : dict :=
  match body with
  | Ok response => response
  | Raise e => create_response request_id VNone (internal_error e)
  end.



(* ===================================================================== *)
(** * Responses built by [create_response] *)
(* ===================================================================== *)

Section Responses.

Variables (request_id result : value).

Lemma create_response_error (c : string * value) (err : dict) :
  create_response request_id result (Some (c :: err)) =
  [("jsonrpc", VStr "2.0");
   ("id", if negb (is_none request_id) then request_id else VStr "unknown");
   ("error",
    VDict [("code", dict_get_default (c :: err) "code" (VInt (-32603)));
           ("message", dict_get_default (c :: err) "message" (VStr "Internal error"));
           ("data", dict_get_default (c :: err) "data" VNone)])].
Proof. reflexivity. Qed.

Lemma create_response_result :
  create_response request_id result None =
  [("jsonrpc", VStr "2.0");
   ("id", if negb (is_none request_id) then request_id else VStr "unknown");
   ("result", if negb (is_none result) then result else VDict [])].
Proof. reflexivity. Qed.

Lemma create_response_id (error : error_arg) :
  dict_get (create_response request_id result error) "id" =
  Some (if is_none request_id then VStr "unknown" else request_id).
Proof.
  unfold create_response.
  destruct error as [[|c err]|]; destruct (is_none request_id); reflexivity.
Qed.

End Responses.

Lemma create_response_well_formed request_id result error :
  well_formed (create_response request_id result error).
Proof.
  unfold create_response, well_formed.
  destruct error as [[|c err]|]; split; reflexivity.
Qed.

Ltac case_step :=
  match goal with
  | |- context [bind ?c _] => destruct c; cbn [bind]
  | |- context [if ?b then _ else _] => destruct b; cbn [bind]
  end.

Lemma handle_initialize_built request_id params :
  built (handle_initialize request_id params).
Proof. unfold handle_initialize; repeat case_step; auto. Qed.

Lemma call_tool_built now request_id tool_name arguments :
  built (call_tool now request_id tool_name arguments).
Proof. unfold call_tool; repeat case_step; auto. Qed.

Lemma built_caught request_id body : built body -> built (Ok (caught request_id body)).
Proof. intros [i r e | e]; cbn [caught]; constructor. Qed.

(** ** The statements around the two [try]s *)

(** [handle_tools_call] on params with a name that is true as a condition:
    the name is formatted for the log before the [try]; when that raises,
    so does the method, and otherwise the [try] answers. *)
Lemma handle_tools_call_named now request_id p :
  truthy (dict_get_default p "name" VNone) = true ->
  handle_tools_call now request_id (VDict p)
  = match Repr.str (dict_get_default p "name" VNone) with
    | Ok _ =>
        Ok (caught request_id
              (call_tool now request_id (dict_get_default p "name" VNone)
                 (dict_get_default p "arguments" (VDict []))))
    | Raise e => Raise e
    end.
Proof.
  intros Hname. unfold handle_tools_call. rewrite Hname. cbn [negb].
  destruct (Repr.str (dict_get_default p "name" VNone)); cbn [log bind];
    [|reflexivity].
  destruct (call_tool _ _ _ _); reflexivity.
Qed.

Lemma handle_tools_call_built now request_id params :
  built (handle_tools_call now request_id params).
Proof.
  destruct params; try (cbn [handle_tools_call]; constructor).
  destruct (truthy (dict_get_default d "name" VNone)) eqn:Hname.
  - rewrite (handle_tools_call_named now request_id d Hname).
    destruct (Repr.str _); [|constructor].
    apply built_caught, call_tool_built.
  - unfold handle_tools_call. rewrite Hname. constructor.
Qed.

Lemma dispatch_built now method request_id params :
  built (dispatch now method request_id params).
Proof.
  unfold dispatch.
  destruct (eq_str method "initialize"); [apply handle_initialize_built|].
  destruct (eq_str method "tools/list"); [unfold handle_tools_list; constructor|].
  destruct (eq_str method "tools/call"); [apply handle_tools_call_built|].
  unfold log. destruct (Repr.str method); cbn [bind]; constructor.
Qed.

(** [handle_request] on a request that passes the envelope checks: the
    method and the id are formatted for the log before the [try]; when
    that raises, so does [handle_request], and otherwise the [try]
    answers. *)
Lemma handle_request_accepted now request method request_id params :
  accepted request = Some (method, request_id, params) ->
  handle_request now request
  = match Repr.str method, Repr.str request_id with
    | Ok _, Ok _ => Ok (caught request_id (dispatch now method request_id params))
    | Ok _, Raise e => Raise e
    | Raise e, _ => Raise e
    end.
Proof.
  unfold accepted, handle_request.
  destruct request; try discriminate.
  destruct (eq_str _ "2.0"); cbn [negb andb]; [|discriminate].
  destruct (truthy _); cbn [negb]; [|discriminate].
  intros [= <- <- <-].
  destruct (Repr.str (dict_get_default d "method" VNone)); cbn [log bind];
    [|reflexivity].
  destruct (Repr.str (dict_get_default d "id" VNone)); cbn [log bind];
    [|reflexivity].
  destruct (dispatch _ _ _ _); reflexivity.
Qed.

Lemma handle_request_rejected now request :
  accepted request = None ->
  exists code message,
    handle_request now request
    = Ok (create_response (request_id_of request) VNone
            (Some [("code", VInt code); ("message", VStr message)]))
    /\ In code standard_codes.
Proof.
  unfold accepted, handle_request, request_id_of, standard_codes.
  destruct request;
    try (intros _; do 2 eexists; split; [reflexivity | cbn; tauto]).
  destruct (eq_str _ "2.0"); cbn [negb andb];
    [| intros _; do 2 eexists; split; [reflexivity | cbn; tauto]].
  destruct (truthy _); cbn [negb]; [discriminate|].
  intros _; do 2 eexists; split; [reflexivity | cbn; tauto].
Qed.

Lemma handle_request_built now request : built (handle_request now request).
Proof.
  destruct (accepted request) as [[[method request_id] params]|] eqn:Hacc.
  - rewrite (handle_request_accepted now _ _ _ _ Hacc).
    destruct (Repr.str method); [|constructor].
    destruct (Repr.str request_id); [|constructor].
    apply built_caught, dispatch_built.
  - destruct (handle_request_rejected now request Hacc) as (c & m & -> & _).
    constructor.
Qed.

(** ** Reading an error response *)

Section ErrorResponses.

Variables (request_id result code message : value).

Let response :=
  create_response request_id result (Some [("code", code); ("message", message)]).

Lemma error_response_code : error_field response "code" = Some code.
Proof. reflexivity. Qed.

Lemma error_response_message : error_field response "message" = Some message.
Proof. reflexivity. Qed.

Lemma error_response_no_result : dict_has response "result" = false.
Proof. reflexivity. Qed.

Lemma error_response_has_error : dict_has response "error" = true.
Proof. reflexivity. Qed.

End ErrorResponses.

Lemma eq_str_true v s : eq_str v s = true <-> v = VStr s.
Proof.
  destruct v; simpl; try (split; [discriminate | intros [=]]).
  rewrite String.eqb_eq. split; [intros -> | intros [=]]; congruence.
Qed.

Lemma eq_str_false v s : v <> VStr s -> eq_str v s = false.
Proof.
  intros H. destruct (eq_str v s) eqn:E; [|reflexivity].
  apply eq_str_true in E. contradiction.
Qed.

(* ===================================================================== *)
(** * The dispatcher: envelope checks, totality, response shape *)
(* ===================================================================== *)

(** C1 (amended).  For every input of [handle_request] that is not a
    mapping, the response carries the error code -32700 with the message
    "Parse error: request must be an object", a null [data], no result, and
    the id is the string "unknown": [create_response] replaces the [None]
    it is given. *)
Theorem handle_request_not_an_object now request :
  is_dict request = false ->
  handle_request now request =
  Ok [("jsonrpc", VStr "2.0");
      ("id", VStr "unknown");
      ("error",
       VDict [("code", VInt (-32700));
              ("message", VStr "Parse error: request must be an object");
              ("data", VNone)])].
Proof. destruct request; intros H; try discriminate H; reflexivity. Qed.

Lemma handle_request_not_an_object_witness :
  is_dict (VList [VInt 1; VInt 2]) = false
  /\ handle_request "2025-06-01T12:00:00.000000" (VList [VInt 1; VInt 2]) =
     Ok [("jsonrpc", VStr "2.0");
         ("id", VStr "unknown");
         ("error",
          VDict [("code", VInt (-32700));
                 ("message", VStr "Parse error: request must be an object");
                 ("data", VNone)])].
Proof.
  split; [reflexivity | apply handle_request_not_an_object; reflexivity].
Defined.

(** C1 as stated fails: for the JSON array [[1, 2]] the response has the
    code -32700 but its id is "unknown", not null. *)
Lemma parse_error_id_is_not_null :
  exists response,
    handle_request "2025-06-01T12:00:00.000000" (VList [VInt 1; VInt 2])
      = Ok response
    /\ error_field response "code" = Some (VInt (-32700))
    /\ dict_get response "id" = Some (VStr "unknown")
    /\ dict_get response "id" <> Some VNone.
Proof.
  eexists; split; [reflexivity|].
  split; [reflexivity|]. split; [reflexivity | discriminate].
Qed.

(** C2 (defect of the code).  [handle_request] is not total.  The message
    of [logging.info] is built from the method and the id after the
    envelope checks and before the [try]; formatting raises [ValueError]
    for an integer of more than 4300 digits, and nothing handles it: for
    the request below, whose method is [10^5000], [handle_request] raises
    instead of returning a response. *)
Theorem handle_request_raises_on_long_integer :
  handle_request "2025-06-01T12:00:00.000000"
    (VDict [("jsonrpc", VStr "2.0"); ("id", VInt 1); ("method", VInt (10 ^ 5000))])
  = Raise
      (ValueError
         "Exceeds the limit (4300 digits) for integer string conversion; use sys.set_int_max_str_digits() to increase the limit").
Proof. vm_compute. reflexivity. Qed.

(** C3.  Every response produced by [handle_request] has [jsonrpc] equal to
    "2.0" and contains exactly one of the keys [result] and [error]. *)
Theorem handle_request_well_formed now request response :
  handle_request now request = Ok response ->
  dict_get response "jsonrpc" = Some (VStr "2.0")
  /\ ((dict_has response "result" = true /\ dict_has response "error" = false)
      \/ (dict_has response "result" = false /\ dict_has response "error" = true)).
Proof.
  intros Hr. pose proof (handle_request_built now request) as Hb.
  rewrite Hr in Hb. inversion Hb as [i r e Heq |]; subst.
  destruct (create_response_well_formed i r e) as [Hv Hx].
  split; [exact Hv|].
  destruct (dict_has _ "result"), (dict_has _ "error");
    try discriminate Hx; auto.
Qed.

Lemma handle_request_well_formed_witness :
  exists response,
    handle_request "2025-06-01T12:00:00.000000"
      (VDict [("jsonrpc", VStr "2.0"); ("id", VInt 2); ("method", VStr "tools/list")])
    = Ok response
    /\ dict_get response "jsonrpc" = Some (VStr "2.0")
    /\ dict_has response "result" = true
    /\ dict_has response "error" = false.
Proof.
  eexists. split; [reflexivity|].
  destruct (handle_request_well_formed "2025-06-01T12:00:00.000000"
              (VDict [("jsonrpc", VStr "2.0"); ("id", VInt 2);
                      ("method", VStr "tools/list")]) _ eq_refl) as [Hv _].
  split; [exact Hv|]. split; reflexivity.
Defined.

(** C8 (amended).  For every request that is a mapping whose [jsonrpc]
    field is missing or differs from "2.0", [handle_request] returns the
    error code -32600 and no result; the request's id is echoed when it is
    present and not null, and the id is "unknown" otherwise. *)
Theorem handle_request_wrong_version now r :
  dict_get r "jsonrpc" <> Some (VStr "2.0") ->
  exists response,
    handle_request now (VDict r) = Ok response
    /\ error_field response "code" = Some (VInt (-32600))
    /\ dict_has response "result" = false
    /\ dict_get response "id"
       = Some (match dict_get r "id" with
               | Some VNone | None => VStr "unknown"
               | Some request_id => request_id
               end).
Proof.
  intros Hv. unfold handle_request.
  rewrite eq_str_false.
  - cbn [negb]. eexists. split; [reflexivity|].
    split; [apply error_response_code|].
    split; [apply error_response_no_result|].
    rewrite create_response_id. unfold dict_get_default.
    destruct (dict_get r "id") as [[]|]; reflexivity.
  - unfold dict_get_default. destruct (dict_get r "jsonrpc"); congruence.
Qed.

Lemma handle_request_wrong_version_witness :
  dict_get [("jsonrpc", VStr "1.0"); ("id", VInt 7); ("method", VStr "initialize")]
    "jsonrpc" <> Some (VStr "2.0")
  /\ exists response,
    handle_request "2025-06-01T12:00:00.000000"
      (VDict [("jsonrpc", VStr "1.0"); ("id", VInt 7); ("method", VStr "initialize")])
      = Ok response
    /\ error_field response "code" = Some (VInt (-32600))
    /\ dict_has response "result" = false
    /\ dict_get response "id" = Some (VInt 7).
Proof.
  assert (H : dict_get
                [("jsonrpc", VStr "1.0"); ("id", VInt 7); ("method", VStr "initialize")]
                "jsonrpc" <> Some (VStr "2.0")) by (simpl; discriminate).
  split; [exact H|].
  exact (handle_request_wrong_version "2025-06-01T12:00:00.000000" _ H).
Defined.

(** C8 as stated fails: the request [{"jsonrpc": "1.0", "id": null}] has an
    id, null, and the response's id is "unknown". *)
Lemma null_id_is_not_echoed :
  dict_get [("jsonrpc", VStr "1.0"); ("id", VNone)] "id" = Some VNone
  /\ exists response,
       handle_request "2025-06-01T12:00:00.000000"
         (VDict [("jsonrpc", VStr "1.0"); ("id", VNone)]) = Ok response
       /\ error_field response "code" = Some (VInt (-32600))
       /\ dict_get response "id" = Some (VStr "unknown")
       /\ dict_get response "id" <> Some VNone.
Proof.
  split; [reflexivity|].
  eexists; split; [reflexivity|].
  split; [reflexivity|]. split; [reflexivity | discriminate].
Qed.

(* ===================================================================== *)
(** * The tool executor [add_numbers] *)
(* ===================================================================== *)

(** * The tool executor [add_numbers] *)
(* ===================================================================== *)

Lemma cond_Zopp_mul s a b : cond_Zopp s a * b = cond_Zopp s (a * b).
Proof. destruct s; simpl; lia. Qed.

(** When [is_integer] holds, [int] returns the float's exact value. *)
Lemma to_int_exact x :
  F64.is_integer x = true ->
  exists z, F64.to_int x = Ok z /\ is_value_of x z.
Proof.
  destruct x as [s|s| |s m e]; simpl; try discriminate.
  - intros _. exists 0. auto.
  - intros H. eexists. split; [reflexivity|].
    destruct (Z.leb_spec 0 e) as [He|He].
    + rewrite Z.shiftl_mul_pow2 by lia.
      rewrite Z.max_l, Z.max_r by lia.
      rewrite cond_Zopp_mul. lia.
    + simpl in H. apply Z.eqb_eq in H.
      rewrite Z.shiftl_div_pow2 by lia.
      rewrite Z.max_r, Z.max_l by lia.
      rewrite !cond_Zopp_mul. f_equal.
      assert (0 < 2 ^ (- e)) by (apply Z.pow_pos_nonneg; lia).
      rewrite (Z.div_mod (Zpos m) (2 ^ (- e))) at 1 by lia.
      rewrite H. lia.
Qed.

(** Conversely, a float that is exactly an integer passes [is_integer],
    and [int] returns that integer. *)
Lemma is_value_of_to_int x z :
  is_value_of x z -> F64.is_integer x = true /\ F64.to_int x = Ok z.
Proof.
  destruct x as [s|s| |s m e]; simpl; try contradiction.
  - intros ->. auto.
  - intros H.
    destruct (Z.leb_spec 0 e) as [He|He]; simpl.
    + split; [reflexivity|].
      rewrite Z.max_l, Z.max_r in H by lia.
      rewrite Z.shiftl_mul_pow2 by lia.
      rewrite cond_Zopp_mul in H. f_equal. lia.
    + rewrite Z.max_r, Z.max_l in H by lia.
      assert (Hp : 0 < 2 ^ (- e)) by (apply Z.pow_pos_nonneg; lia).
      assert (Hm : Zpos m = cond_Zopp s z * 2 ^ (- e)).
      { rewrite cond_Zopp_mul. destruct s; simpl in *; lia. }
      split.
      * apply Z.eqb_eq. rewrite Hm. apply Z.mod_mul. lia.
      * rewrite Z.shiftl_div_pow2 by lia.
        rewrite Hm, Z.div_mul by lia.
        f_equal. destruct s; simpl; lia.
Qed.

Lemma add_numbers_converted now a b n1 n2 :
  py_float a = Ok n1 -> py_float b = Ok n2 ->
  exists r,
    add_numbers now a b = Ok (calculation now n1 n2 r)
    /\ normalized (F64.add n1 n2) r.
Proof.
  intros Ha Hb. unfold add_numbers, normalized. rewrite Ha, Hb. cbn [bind].
  destruct (F64.is_integer (F64.add n1 n2)) eqn:E.
  - destruct (to_int_exact _ E) as (z & -> & Hz). cbn [bind try_except].
    exists (VInt z). split; [reflexivity|]. left. exists z. auto.
  - cbn [bind try_except]. eexists. split; [reflexivity|]. right. auto.
Qed.

Lemma add_numbers_unparseable now a b :
  unparseable a = true \/ (convertible a = true /\ unparseable b = true) ->
  exists e,
    value_or_type_error e = true
    /\ add_numbers now a b = Ok (failed_calculation now a b e).
Proof.
  unfold unparseable, convertible, add_numbers.
  intros [Ha | [Ha Hb]].
  - destruct (py_float a) as [|e]; [discriminate|].
    exists e. cbn [bind try_except]. rewrite Ha. auto.
  - destruct (py_float a) as [n1|]; [|discriminate].
    destruct (py_float b) as [|e]; [discriminate|].
    exists e. cbn [bind try_except]. rewrite Hb. auto.
Qed.



Lemma result_text_failed now a b e :
  result_text (failed_calculation now a b e)
  = (number1 <- Repr.str a ;;
     number2 <- Repr.str b ;;
     Ok (error_text number1 number2
           ("Invalid numbers provided: " ++ exn_str e) now)).
Proof. reflexivity. Qed.

(** ** Substrings *)

(** ** Substrings *)

Lemma starts_with_append n s : starts_with n (n ++ s) = true.
Proof.
  induction n as [|c n IH]; simpl.
  - reflexivity.
  - rewrite Ascii.eqb_refl. exact IH.
Qed.

Lemma contains_here n s : contains n (n ++ s) = true.
Proof.
  destruct (n ++ s) eqn:E; simpl; rewrite <- E, starts_with_append; reflexivity.
Qed.

Lemma contains_append_r n a s : contains n s = true -> contains n (a ++ s) = true.
Proof.
  intros H. induction a as [|c a IH]; simpl.
  - exact H.
  - rewrite IH. apply orb_true_r.
Qed.

Lemma error_text_contains a b msg ts :
  contains "Invalid numbers provided"
    (error_text a b ("Invalid numbers provided: " ++ msg) ts) = true.
Proof.
  unfold error_text. do 9 apply contains_append_r.
  exact (contains_here "Invalid numbers provided"
           (": " ++ msg ++ newline ++ "Timestamp: " ++ ts)).
Qed.

Lemma is_none_true v : is_none v = true <-> v = VNone.
Proof. destruct v; simpl; split; congruence. Qed.

Lemma is_none_false v : v <> VNone -> is_none v = false.
Proof. destruct v; simpl; congruence. Qed.

(** [handle_tools_call] on a call of [add_numbers] whose arguments are a
    mapping (the default [{}] when the key is absent). *)
Lemma handle_tools_call_add_numbers now request_id p args :
  dict_get p "name" = Some (VStr "add_numbers") ->
  dict_get_default p "arguments" (VDict []) = VDict args ->
  handle_tools_call now request_id (VDict p) =
  Ok (caught request_id
        (if is_none (dict_get_default args "number1" VNone)
            || is_none (dict_get_default args "number2" VNone)
         then
           Ok (create_response request_id VNone
                 (Some [("code", VInt (-32602));
                        ("message", VStr "Both number1 and number2 are required")]))
         else
           calc <- add_numbers now (dict_get_default args "number1" VNone)
                     (dict_get_default args "number2" VNone) ;;
           text <- result_text calc ;;
           Ok (create_response request_id (tool_result text calc) None))).
Proof.
  intros Hname Hargs.
  assert (Hn : dict_get_default p "name" VNone = VStr "add_numbers")
    by (unfold dict_get_default; rewrite Hname; reflexivity).
  rewrite handle_tools_call_named by (rewrite Hn; reflexivity).
  rewrite Hn, Hargs. reflexivity.
Qed.

(** C6.  For every pair of inputs that [add_numbers] converts to floats
    [n1] and [n2]: it returns a calculation without [error] whose [result]
    is the integer [z] when the sum [n1 + n2] is exactly the integer [z]
    (it has no fractional part), and is the float sum when the sum is no
    integer. *)
Theorem add_numbers_integer_normalization now a b n1 n2 :
  py_float a = Ok n1 ->
  py_float b = Ok n2 ->
  exists calc r,
    add_numbers now a b = Ok calc
    /\ dict_has calc "error" = false
    /\ dict_get calc "result" = Some r
    /\ (forall z, is_value_of (F64.add n1 n2) z -> r = VInt z)
    /\ ((forall z, ~ is_value_of (F64.add n1 n2) z) -> r = VFloat (F64.add n1 n2)).
Proof.
  intros Ha Hb.
  destruct (add_numbers_converted now a b n1 n2 Ha Hb) as (r & Hcalc & Hr).
  exists (calculation now n1 n2 r), r.
  split; [exact Hcalc|]. split; [reflexivity|]. split; [reflexivity|].
  destruct Hr as [(z & Hint & Hz & ->) | (Hint & ->)]; split.
  - intros z' Hz'.
    apply is_value_of_to_int in Hz, Hz'. destruct Hz as [_ Hz], Hz' as [_ Hz'].
    congruence.
  - intros Hnone. destruct (Hnone z Hz).
  - intros z Hz. apply is_value_of_to_int in Hz. destruct Hz; congruence.
  - reflexivity.
Qed.

(** [add_numbers(2.5, 2.5)]: the sum 5.0 is returned as the integer 5. *)
Lemma add_numbers_integer_normalization_witness :
  py_float (VFloat two_and_a_half) = Ok two_and_a_half
  /\ is_value_of (F64.add two_and_a_half two_and_a_half) 5
  /\ exists calc,
       add_numbers "2025-06-01T12:00:00.000000"
         (VFloat two_and_a_half) (VFloat two_and_a_half) = Ok calc
       /\ dict_has calc "error" = false
       /\ dict_get calc "result" = Some (VInt 5).
Proof.
  set (x := two_and_a_half).
  assert (Hx : py_float (VFloat x) = Ok x) by reflexivity.
  assert (H5 : is_value_of (F64.add x x) 5) by (vm_compute; reflexivity).
  split; [exact Hx|]. split; [exact H5|].
  destruct (add_numbers_integer_normalization "2025-06-01T12:00:00.000000"
              (VFloat x) (VFloat x) x x Hx Hx)
    as (calc & r & Hcalc & Herr & Hres & Hint & _).
  exists calc. rewrite <- (Hint 5 H5). auto.
Defined.

(** C9.  The [result] field of [add_numbers] does not depend on when it is
    called: two invocations on the same convertible inputs, at clock
    readings [now1] and [now2], return calculations with the same [result],
    each stamped with its own reading. *)
Theorem add_numbers_result_deterministic now1 now2 a b n1 n2 :
  py_float a = Ok n1 ->
  py_float b = Ok n2 ->
  exists calc1 calc2 r,
    add_numbers now1 a b = Ok calc1
    /\ add_numbers now2 a b = Ok calc2
    /\ dict_get calc1 "result" = Some r
    /\ dict_get calc2 "result" = Some r
    /\ dict_get calc1 "timestamp" = Some (VStr now1)
    /\ dict_get calc2 "timestamp" = Some (VStr now2).
Proof.
  intros Ha Hb.
  destruct (add_numbers_converted now1 a b n1 n2 Ha Hb) as (r1 & H1 & Hr1).
  destruct (add_numbers_converted now2 a b n1 n2 Ha Hb) as (r2 & H2 & Hr2).
  assert (r1 = r2) as <-.
  { destruct Hr1 as [(z1 & I1 & Hz1 & ->) | (I1 & ->)],
             Hr2 as [(z2 & I2 & Hz2 & ->) | (I2 & ->)]; try congruence.
    apply is_value_of_to_int in Hz1, Hz2.
    destruct Hz1 as [_ Hz1], Hz2 as [_ Hz2]. congruence. }
  exists (calculation now1 n1 n2 r1), (calculation now2 n1 n2 r1), r1.
  repeat split; assumption.
Qed.

(** [add_numbers(2, 3)] twice, a second apart: both results are 5. *)
Lemma add_numbers_result_deterministic_witness :
  py_float (VInt 2) = Ok (S754_finite false 4503599627370496 (-51))
  /\ py_float (VInt 3) = Ok (S754_finite false 6755399441055744 (-51))
  /\ exists calc1 calc2,
       add_numbers "2025-06-01T12:00:00.000000" (VInt 2) (VInt 3) = Ok calc1
       /\ add_numbers "2025-06-01T12:00:01.000000" (VInt 2) (VInt 3) = Ok calc2
       /\ dict_get calc1 "result" = Some (VInt 5)
       /\ dict_get calc2 "result" = Some (VInt 5)
       /\ dict_get calc1 "timestamp" <> dict_get calc2 "timestamp".
Proof.
  assert (H2 : py_float (VInt 2) = Ok (S754_finite false 4503599627370496 (-51)))
    by reflexivity.
  assert (H3 : py_float (VInt 3) = Ok (S754_finite false 6755399441055744 (-51)))
    by reflexivity.
  split; [exact H2|]. split; [exact H3|].
  destruct (add_numbers_result_deterministic
              "2025-06-01T12:00:00.000000" "2025-06-01T12:00:01.000000"
              (VInt 2) (VInt 3) _ _ H2 H3)
    as (calc1 & calc2 & r & Hc1 & Hc2 & Hr1 & Hr2 & Ht1 & Ht2).
  exists calc1, calc2.
  assert (r = VInt 5) as ->.
  { vm_compute in Hc1. injection Hc1 as <-. vm_compute in Hr1. congruence. }
  rewrite Ht1, Ht2. repeat split; try assumption. discriminate.
Defined.

(* ===================================================================== *)
(** * [tools/call] of [add_numbers] *)
(* ===================================================================== *)

(** C4 (amended).  For every [tools/call] whose params is a mapping naming
    the tool "add_numbers" and whose arguments is a mapping (or absent):
    if [number1] or [number2] is absent or null the response is the error
    -32602; otherwise, whenever the executor returns a calculation and the
    message is formatted from it, the response is a success whose result
    holds one content block of type "text" with the formatted message, and
    whose [isError] is true if and only if the calculation contains
    [error]. *)
Theorem tools_call_add_numbers now request_id p args :
  dict_get p "name" = Some (VStr "add_numbers") ->
  dict_get_default p "arguments" (VDict []) = VDict args ->
  (dict_get_default args "number1" VNone = VNone
   \/ dict_get_default args "number2" VNone = VNone ->
   exists response,
     handle_tools_call now request_id (VDict p) = Ok response
     /\ error_field response "code" = Some (VInt (-32602))
     /\ dict_has response "result" = false)
  /\ (dict_get_default args "number1" VNone <> VNone ->
      dict_get_default args "number2" VNone <> VNone ->
      forall calc text,
        add_numbers now (dict_get_default args "number1" VNone)
          (dict_get_default args "number2" VNone) = Ok calc ->
        result_text calc = Ok text ->
        exists response,
          handle_tools_call now request_id (VDict p) = Ok response
          /\ dict_has response "error" = false
          /\ dict_get response "result"
             = Some (VDict [("content",
                             VList [VDict [("type", VStr "text");
                                           ("text", VStr text)]]);
                            ("isError", VBool (dict_has calc "error"))])).
Proof.
  intros Hname Hargs.
  rewrite (handle_tools_call_add_numbers now request_id p args Hname Hargs).
  split.
  - intros Hnone.
    assert (is_none (dict_get_default args "number1" VNone)
            || is_none (dict_get_default args "number2" VNone) = true) as ->.
    { apply orb_true_iff. rewrite !is_none_true. exact Hnone. }
    eexists. split; [reflexivity|]. split; reflexivity.
  - intros H1 H2 calc text Hcalc Htext.
    rewrite (is_none_false _ H1), (is_none_false _ H2), Hcalc. cbn [orb bind].
    rewrite Htext. cbn [bind caught].
    eexists. split; [reflexivity|]. split; reflexivity.
Qed.

(** The call [add_numbers(2, 3)] of the specification's example. *)
Lemma tools_call_add_numbers_witness :
  dict_get [("name", VStr "add_numbers");
            ("arguments", VDict [("number1", VInt 2); ("number2", VInt 3)])]
    "name" = Some (VStr "add_numbers")
  /\ exists response text,
       handle_tools_call "2025-06-01T12:00:00.000000" (VInt 1)
         (VDict [("name", VStr "add_numbers");
                 ("arguments", VDict [("number1", VInt 2); ("number2", VInt 3)])])
         = Ok response
       /\ dict_has response "error" = false
       /\ result_field response "isError" = Some (VBool false)
       /\ result_field response "content"
          = Some (VList [VDict [("type", VStr "text"); ("text", VStr text)]])
       /\ contains "2.0 + 3.0 = 5" text = true.
Proof.
  split; [reflexivity|].
  destruct (tools_call_add_numbers "2025-06-01T12:00:00.000000" (VInt 1)
              [("name", VStr "add_numbers");
               ("arguments", VDict [("number1", VInt 2); ("number2", VInt 3)])]
              [("number1", VInt 2); ("number2", VInt 3)]
              eq_refl eq_refl) as [_ H].
  assert (Hcalc : exists calc,
             add_numbers "2025-06-01T12:00:00.000000" (VInt 2) (VInt 3) = Ok calc
             /\ exists text, result_text calc = Ok text
                             /\ dict_has calc "error" = false
                             /\ contains "2.0 + 3.0 = 5" text = true).
  { eexists. split; [vm_compute; reflexivity|].
    eexists. split; [vm_compute; reflexivity|]. split; vm_compute; reflexivity. }
  destruct Hcalc as (calc & Hcalc & text & Htext & Hnoerr & Hin).
  destruct (H ltac:(discriminate) ltac:(discriminate) calc text Hcalc Htext)
    as (response & Hresp & Herr & Hres).
  exists response, text.
  split; [exact Hresp|]. split; [exact Herr|].
  unfold result_field. rewrite Hres. cbn [dict_get String.eqb Ascii.eqb Bool.eqb].
  rewrite Hnoerr. repeat split. exact Hin.
Defined.

(** C4 as stated fails: with [arguments = [1, 2]], a JSON array, [number1]
    is absent and the response is the error -32603, not -32602. *)
Lemma array_arguments_not_invalid_params :
  exists response,
    handle_tools_call "2025-06-01T12:00:00.000000" (VInt 1)
      (VDict [("name", VStr "add_numbers");
              ("arguments", VList [VInt 1; VInt 2])]) = Ok response
    /\ error_field response "code" = Some (VInt (-32603))
    /\ error_field response "code" <> Some (VInt (-32602)).
Proof.
  eexists. split; [reflexivity|]. split; [reflexivity | discriminate].
Qed.

(** X21.  For every [tools/call] of [add_numbers] with mapping arguments
    and non-null [number1] and [number2] that both format as strings,
    where [number1] cannot be parsed as a number, or [number1] converts to
    a float and [number2] cannot be parsed: the executor returns (does not
    raise) a calculation containing [error], and the response is a
    success, with a result and no top-level error, whose [isError] is true
    and whose content text contains "Invalid numbers provided". *)
Theorem tools_call_unparseable_argument now request_id p args number1 number2
    text1 text2 :
  dict_get p "name" = Some (VStr "add_numbers") ->
  dict_get p "arguments" = Some (VDict args) ->
  dict_get args "number1" = Some number1 -> number1 <> VNone ->
  dict_get args "number2" = Some number2 -> number2 <> VNone ->
  Repr.str number1 = Ok text1 ->
  Repr.str number2 = Ok text2 ->
  unparseable number1 = true
  \/ (convertible number1 = true /\ unparseable number2 = true) ->
  exists calc text response,
    add_numbers now number1 number2 = Ok calc
    /\ dict_has calc "error" = true
    /\ handle_tools_call now request_id (VDict p) = Ok response
    /\ dict_has response "error" = false
    /\ result_field response "isError" = Some (VBool true)
    /\ result_field response "content"
       = Some (VList [VDict [("type", VStr "text"); ("text", VStr text)]])
    /\ contains "Invalid numbers provided" text = true.
Proof.
  intros Hname Hargs Hk1 H1 Hk2 H2 Hs1 Hs2 Hbad.
  destruct (add_numbers_unparseable now number1 number2 Hbad) as (e & _ & Hcalc).
  assert (Hargs' : dict_get_default p "arguments" (VDict []) = VDict args)
    by (unfold dict_get_default; rewrite Hargs; reflexivity).
  assert (Hn1 : dict_get_default args "number1" VNone = number1)
    by (unfold dict_get_default; rewrite Hk1; reflexivity).
  assert (Hn2 : dict_get_default args "number2" VNone = number2)
    by (unfold dict_get_default; rewrite Hk2; reflexivity).
  rewrite (handle_tools_call_add_numbers now request_id p args Hname Hargs').
  rewrite Hn1, Hn2, (is_none_false _ H1), (is_none_false _ H2), Hcalc.
  cbn [orb bind]. rewrite result_text_failed, Hs1, Hs2. cbn [bind caught].
  do 3 eexists. split; [reflexivity|]. split; [reflexivity|].
  split; [reflexivity|]. split; [reflexivity|]. split; [reflexivity|].
  split; [reflexivity|]. apply error_text_contains.
Qed.

(** The call with [number1 = "abc"], [number2 = 1]. *)
Lemma tools_call_unparseable_argument_witness :
  unparseable (VStr "abc") = true
  /\ exists calc text response,
       add_numbers "2025-06-01T12:00:00.000000" (VStr "abc") (VInt 1) = Ok calc
       /\ dict_has calc "error" = true
       /\ handle_tools_call "2025-06-01T12:00:00.000000" (VInt 1)
            (VDict [("name", VStr "add_numbers");
                    ("arguments",
                     VDict [("number1", VStr "abc"); ("number2", VInt 1)])])
          = Ok response
       /\ dict_has response "error" = false
       /\ result_field response "isError" = Some (VBool true)
       /\ result_field response "content"
          = Some (VList [VDict [("type", VStr "text"); ("text", VStr text)]])
       /\ contains "Invalid numbers provided" text = true.
Proof.
  assert (H : unparseable (VStr "abc") = true) by (vm_compute; reflexivity).
  split; [exact H|].
  apply (tools_call_unparseable_argument "2025-06-01T12:00:00.000000" (VInt 1)
           [("name", VStr "add_numbers");
            ("arguments", VDict [("number1", VStr "abc"); ("number2", VInt 1)])]
           [("number1", VStr "abc"); ("number2", VInt 1)]
           (VStr "abc") (VInt 1) "abc" "1");
    try reflexivity; try discriminate.
  left. exact H.
Defined.

(** C5 (defect of the code).  The claim fails on the code: with
    [number1 = 10^400] and [number2 = "abc"], the second argument cannot be
    parsed, but [float(number1)] raises [OverflowError] first; the [except]
    clause of [add_numbers] names only [ValueError] and [TypeError], so
    [add_numbers] raises, and the response is the top-level error -32603
    without a result. *)
Lemma overflow_precedes_unparseable :
  unparseable (VStr "abc") = true
  /\ add_numbers "2025-06-01T12:00:00.000000" (VInt (10 ^ 400)) (VStr "abc")
     = Raise (OverflowError "int too large to convert to float")
  /\ exists response,
       handle_tools_call "2025-06-01T12:00:00.000000" (VInt 1)
         (VDict [("name", VStr "add_numbers");
                 ("arguments",
                  VDict [("number1", VInt (10 ^ 400)); ("number2", VStr "abc")])])
       = Ok response
       /\ dict_has response "result" = false
       /\ error_field response "code" = Some (VInt (-32603)).
Proof.
  split; [vm_compute; reflexivity|]. split; [vm_compute; reflexivity|].
  eexists. split; [vm_compute; reflexivity|]. split; reflexivity.
Qed.

(** The same claim fails a second way: [number1 = "abc"] cannot be parsed
    and [add_numbers] returns its calculation with [error], but formatting
    [number2 = 10^5000] into the message raises [ValueError], and the
    response is again the top-level error -32603. *)
Example unparseable_beside_long_integer :
  unparseable (VStr "abc") = true
  /\ exists response,
       handle_tools_call "2025-06-01T12:00:00.000000" (VInt 1)
         (VDict [("name", VStr "add_numbers");
                 ("arguments",
                  VDict [("number1", VStr "abc"); ("number2", VInt (10 ^ 5000))])])
       = Ok response
       /\ dict_has response "result" = false
       /\ error_field response "code" = Some (VInt (-32603)).
Proof.
  split; [vm_compute; reflexivity|].
  eexists. split; [vm_compute; reflexivity|]. split; reflexivity.
Qed.

(** C10.  For every [tools/call] naming "add_numbers" whose [arguments]
    field is present and is not a mapping, [handle_tools_call] returns the
    error code -32603, not -32602; the message is that of the
    [AttributeError] raised by [arguments.get]. *)
Theorem tools_call_arguments_not_a_mapping now request_id p arguments :
  dict_get p "name" = Some (VStr "add_numbers") ->
  dict_get p "arguments" = Some arguments ->
  is_dict arguments = false ->
  exists response,
    handle_tools_call now request_id (VDict p) = Ok response
    /\ error_field response "code" = Some (VInt (-32603))
    /\ error_field response "code" <> Some (VInt (-32602))
    /\ error_field response "message"
       = Some (VStr ("Internal error: '" ++ type_name arguments
                       ++ "' object has no attribute 'get'"))
    /\ dict_has response "result" = false.
Proof.
  intros Hname Hargs Hnd. unfold handle_tools_call, dict_get_default.
  rewrite Hname, Hargs. cbn [truthy String.eqb negb]. unfold call_tool.
  cbn [eq_str]. rewrite String.eqb_refl.
  destruct arguments; try discriminate Hnd;
    (eexists; split; [reflexivity|]; split; [reflexivity|];
     split; [discriminate|]; split; reflexivity).
Qed.

Lemma tools_call_arguments_not_a_mapping_witness :
  is_dict (VStr "2 and 3") = false
  /\ exists response,
       handle_tools_call "2025-06-01T12:00:00.000000" (VInt 1)
         (VDict [("name", VStr "add_numbers"); ("arguments", VStr "2 and 3")])
       = Ok response
       /\ error_field response "code" = Some (VInt (-32603))
       /\ error_field response "code" <> Some (VInt (-32602))
       /\ error_field response "message"
          = Some (VStr "Internal error: 'str' object has no attribute 'get'")
       /\ dict_has response "result" = false.
Proof.
  split; [reflexivity|].
  apply (tools_call_arguments_not_a_mapping "2025-06-01T12:00:00.000000" (VInt 1)
           [("name", VStr "add_numbers"); ("arguments", VStr "2 and 3")]
           (VStr "2 and 3")); reflexivity.
Defined.

(* ===================================================================== *)
(** * [initialize] *)
(* ===================================================================== *)

(** A request that passes the envelope checks and whose method and id
    format as strings is dispatched on its method, inside the [try]. *)
Lemma handle_request_dispatches now r method name id :
  dict_get r "jsonrpc" = Some (VStr "2.0") ->
  dict_get r "method" = Some method ->
  truthy method = true ->
  Repr.str method = Ok name ->
  Repr.str (dict_get_default r "id" VNone) = Ok id ->
  handle_request now (VDict r)
  = Ok (caught (dict_get_default r "id" VNone)
          (dispatch now method (dict_get_default r "id" VNone)
             (dict_get_default r "params" (VDict [])))).
Proof.
  intros Hv Hm Ht Hname Hid.
  rewrite (handle_request_accepted now (VDict r) method
             (dict_get_default r "id" VNone)
             (dict_get_default r "params" (VDict []))).
  - rewrite Hname, Hid. reflexivity.
  - unfold accepted, dict_get_default. rewrite Hv, Hm.
    cbn [eq_str]. rewrite String.eqb_refl, Ht. reflexivity.
Qed.

(** What [handle_initialize] answers on params that is a mapping. *)
Lemma handle_initialize_mapping request_id params :
  handle_initialize request_id (VDict params)
  = Ok (if truthy (dict_get_default params "protocolVersion" VNone)
        then create_response request_id
               (VDict [("protocolVersion",
                        dict_get_default params "protocolVersion" VNone);
                       ("capabilities", capabilities);
                       ("serverInfo", server_info)])
               None
        else create_response request_id VNone
               (Some [("code", VInt (-32602));
                      ("message",
                       VStr "Invalid params: protocolVersion is required")])).
Proof.
  unfold handle_initialize. cbn [py_get bind].
  destruct (truthy _); reflexivity.
Qed.

(** C7 (amended).  For every [initialize] request whose params is a mapping
    (or absent) and whose id formats as a string: if params holds a
    [protocolVersion] that is true as a condition (not null, false, zero
    or empty), the response is a success whose result echoes it together
    with the fixed capabilities [{tools: {}, resources: {}, prompts: {}}]
    and the fixed serverInfo (name, version "1.0.0", description); if
    params lacks [protocolVersion], or holds one that is false as a
    condition, the response is the error -32602.  The response is the one
    [handle_initialize] returns, which it does for every id. *)
Theorem initialize_protocol_version now r params id :
  dict_get r "jsonrpc" = Some (VStr "2.0") ->
  dict_get r "method" = Some (VStr "initialize") ->
  dict_get_default r "params" (VDict []) = VDict params ->
  Repr.str (dict_get_default r "id" VNone) = Ok id ->
  exists response,
    handle_request now (VDict r) = Ok response
    /\ handle_initialize (dict_get_default r "id" VNone) (VDict params)
       = Ok response
    /\ (forall version,
          dict_get params "protocolVersion" = Some version ->
          truthy version = true ->
          dict_has response "error" = false
          /\ dict_get response "result"
             = Some (VDict [("protocolVersion", version);
                            ("capabilities", capabilities);
                            ("serverInfo", server_info)]))
    /\ (dict_get params "protocolVersion" = None
        \/ (exists version,
              dict_get params "protocolVersion" = Some version
              /\ truthy version = false) ->
        error_field response "code" = Some (VInt (-32602))
        /\ dict_has response "result" = false).
Proof.
  intros Hv Hm Hp Hid.
  rewrite (handle_request_dispatches now r _ "initialize" id Hv Hm eq_refl
             eq_refl Hid).
  rewrite Hp. unfold dispatch. cbn [eq_str]. rewrite String.eqb_refl.
  rewrite handle_initialize_mapping. cbn [caught].
  eexists. split; [reflexivity|]. split; [reflexivity|].
  unfold dict_get_default.
  destruct (dict_get params "protocolVersion") as [version|].
  - destruct (truthy version) eqn:Ht; split.
    + intros v [= <-] _. split; reflexivity.
    + intros [|(v & [= <-] & Hf)]; congruence.
    + intros v [= <-] Hf. congruence.
    + intros _. split; reflexivity.
  - cbn [truthy]. split.
    + discriminate.
    + intros _. split; reflexivity.
Qed.

Lemma initialize_protocol_version_witness :
  exists response,
    handle_request "2025-06-01T12:00:00.000000"
      (VDict [("jsonrpc", VStr "2.0"); ("id", VInt 1);
              ("method", VStr "initialize");
              ("params", VDict [("protocolVersion", VStr "2024-11-05")])])
    = Ok response
    /\ dict_has response "error" = false
    /\ result_field response "protocolVersion" = Some (VStr "2024-11-05")
    /\ result_field response "capabilities" = Some capabilities
    /\ result_field response "serverInfo" = Some server_info.
Proof.
  destruct (initialize_protocol_version "2025-06-01T12:00:00.000000"
              [("jsonrpc", VStr "2.0"); ("id", VInt 1);
               ("method", VStr "initialize");
               ("params", VDict [("protocolVersion", VStr "2024-11-05")])]
              [("protocolVersion", VStr "2024-11-05")] "1"
              eq_refl eq_refl eq_refl eq_refl) as (response & Hr & _ & Hyes & _).
  exists response. split; [exact Hr|].
  destruct (Hyes (VStr "2024-11-05") eq_refl eq_refl) as [Herr Hres].
  split; [exact Herr|]. unfold result_field. rewrite Hres.
  repeat split.
Defined.

(** C7 as stated fails: params holding the empty [protocolVersion] ""
    contains the key, and the response is the error -32602. *)
Lemma empty_protocol_version_rejected :
  dict_has [("protocolVersion", VStr "")] "protocolVersion" = true
  /\ exists response,
       handle_request "2025-06-01T12:00:00.000000"
         (VDict [("jsonrpc", VStr "2.0"); ("id", VInt 1);
                 ("method", VStr "initialize");
                 ("params", VDict [("protocolVersion", VStr "")])])
       = Ok response
       /\ dict_has response "result" = false
       /\ error_field response "code" = Some (VInt (-32602)).
Proof.
  split; [reflexivity|].
  eexists. split; [reflexivity|]. split; reflexivity.
Qed.

(* ===================================================================== *)
(** * Further properties of the dispatcher *)
(* ===================================================================== *)

(** * Further properties of the dispatcher *)
(* ===================================================================== *)

Lemma in_standard_codes code :
  code = -32700 \/ code = -32600 \/ code = -32601 \/ code = -32602
  \/ code = -32603 ->
  In code standard_codes.
Proof. unfold standard_codes; simpl; intuition. Qed.

Ltac answer :=
  first
    [ exact I
    | apply success_response
    | apply error_response; apply in_standard_codes; tauto ].

Lemma handle_initialize_answers request_id params :
  answers request_id (handle_initialize request_id params).
Proof. unfold handle_initialize, answers; repeat case_step; answer. Qed.

Lemma call_tool_answers now request_id tool_name arguments :
  answers request_id (call_tool now request_id tool_name arguments).
Proof.
  unfold call_tool, answers; repeat case_step; answer.
Qed.

Lemma answers_caught request_id body :
  answers request_id body -> answers request_id (Ok (caught request_id body)).
Proof.
  destruct body as [response|e]; cbn [answers caught]; [auto|].
  intros _. unfold internal_error. answer.
Qed.

Lemma handle_tools_call_answers now request_id params :
  answers request_id (handle_tools_call now request_id params).
Proof.
  destruct params; try (cbn [handle_tools_call answers]; answer).
  destruct (truthy (dict_get_default d "name" VNone)) eqn:Hname.
  - rewrite (handle_tools_call_named now request_id d Hname).
    destruct (Repr.str _); [|exact I].
    apply answers_caught, call_tool_answers.
  - unfold handle_tools_call. rewrite Hname. cbn [negb answers]. answer.
Qed.

Lemma dispatch_answers now method request_id params :
  answers request_id (dispatch now method request_id params).
Proof.
  unfold dispatch.
  destruct (eq_str method "initialize"); [apply handle_initialize_answers|].
  destruct (eq_str method "tools/list");
    [unfold handle_tools_list; cbn [answers]; answer|].
  destruct (eq_str method "tools/call"); [apply handle_tools_call_answers|].
  unfold log. destruct (Repr.str method); cbn [bind answers]; answer.
Qed.

Lemma handle_request_answers now request :
  answers (request_id_of request) (handle_request now request).
Proof.
  destruct (accepted request) as [[[method request_id] params]|] eqn:Hacc.
  - rewrite (handle_request_accepted now request _ _ _ Hacc).
    assert (request_id_of request = request_id) as ->.
    { revert Hacc. unfold accepted, request_id_of.
      destruct request; try discriminate.
      destruct (_ && _); [|discriminate]. intros [= _ <- _]. reflexivity. }
    destruct (Repr.str method); [|exact I].
    destruct (Repr.str request_id); [|exact I].
    apply answers_caught, dispatch_answers.
  - destruct (handle_request_rejected now request Hacc) as (c & m & -> & Hin).
    cbn [answers]. apply error_response. exact Hin.
Qed.

(** X1.  The id of every response of [handle_request] is the request's id
    when the request is a mapping with an id that is not null, and the
    string "unknown" otherwise: no response has a null id. *)
Theorem response_id_never_null now request response :
  handle_request now request = Ok response ->
  dict_get response "id"
  = Some (if is_none (request_id_of request) then VStr "unknown"
          else request_id_of request)
  /\ dict_get response "id" <> Some VNone.
Proof.
  intros Hr. pose proof (handle_request_answers now request) as Hto.
  rewrite Hr in Hto. cbn [answers] in Hto.
  assert (Hid : dict_get response "id"
                = Some (if is_none (request_id_of request) then VStr "unknown"
                        else request_id_of request))
    by (destruct Hto; apply create_response_id).
  split; [exact Hid|]. rewrite Hid.
  destruct (request_id_of request); simpl; discriminate.
Qed.

Lemma response_id_never_null_witness :
  exists response,
    handle_request "2025-06-01T12:00:00.000000"
      (VDict [("jsonrpc", VStr "2.0"); ("id", VNone); ("method", VStr "tools/list")])
    = Ok response
    /\ dict_get response "id" = Some (VStr "unknown").
Proof.
  eexists. split; [reflexivity|].
  exact (proj1 (response_id_never_null "2025-06-01T12:00:00.000000"
                  (VDict [("jsonrpc", VStr "2.0"); ("id", VNone);
                          ("method", VStr "tools/list")]) _ eq_refl)).
Defined.

(** X2.  Every error response of [handle_request] carries exactly the keys
    code, message and data: the code is one of -32700, -32600, -32601,
    -32602 and -32603, the message is a string and the data is null. *)
Theorem error_responses_are_standard now request response :
  handle_request now request = Ok response ->
  dict_has response "error" = true ->
  exists code message,
    In code standard_codes
    /\ dict_get response "error"
       = Some (VDict [("code", VInt code);
                      ("message", VStr message);
                      ("data", VNone)]).
Proof.
  intros Hr. pose proof (handle_request_answers now request) as Hto.
  rewrite Hr in Hto. cbn [answers] in Hto.
  destruct Hto as [result | code message Hin].
  - intros H. discriminate H.
  - intros _. exists code, message. split; [exact Hin | reflexivity].
Qed.

Lemma error_responses_are_standard_witness :
  exists response code message,
    handle_request "2025-06-01T12:00:00.000000"
      (VDict [("jsonrpc", VStr "2.0"); ("id", VInt 7); ("method", VStr "resources/list")])
    = Ok response
    /\ In code standard_codes
    /\ dict_get response "error"
       = Some (VDict [("code", VInt code);
                      ("message", VStr message);
                      ("data", VNone)]).
Proof.
  eexists.
  destruct (error_responses_are_standard "2025-06-01T12:00:00.000000"
              (VDict [("jsonrpc", VStr "2.0"); ("id", VInt 7);
                      ("method", VStr "resources/list")]) _ eq_refl eq_refl)
    as (code & message & Hin & Herr).
  exists code, message. split; [reflexivity|]. split; [exact Hin | exact Herr].
Defined.

(** X3.  The result of every success response of [handle_request] is a
    mapping: the default [{}] of [create_response] for a missing result is
    never needed. *)
Theorem success_results_are_mappings now request response :
  handle_request now request = Ok response ->
  dict_has response "result" = true ->
  exists result, dict_get response "result" = Some (VDict result).
Proof.
  intros Hr. pose proof (handle_request_answers now request) as Hto.
  rewrite Hr in Hto. cbn [answers] in Hto.
  destruct Hto as [result | code message Hin].
  - intros _. exists result. reflexivity.
  - intros H. discriminate H.
Qed.

Lemma success_results_are_mappings_witness :
  exists response result,
    handle_request "2025-06-01T12:00:00.000000"
      (VDict [("jsonrpc", VStr "2.0"); ("id", VInt 2); ("method", VStr "tools/list")])
    = Ok response
    /\ dict_get response "result" = Some (VDict result).
Proof.
  eexists.
  destruct (success_results_are_mappings "2025-06-01T12:00:00.000000"
              (VDict [("jsonrpc", VStr "2.0"); ("id", VInt 2);
                      ("method", VStr "tools/list")]) _ eq_refl eq_refl)
    as (result & Hres).
  exists result. split; [reflexivity | exact Hres].
Defined.

Lemma starts_with_refl n : starts_with n n = true.
Proof.
  induction n as [|c n IH]; simpl; [reflexivity|].
  rewrite Ascii.eqb_refl. exact IH.
Qed.

Lemma contains_refl n : contains n n = true.
Proof. destruct n; simpl; [reflexivity|]. rewrite Ascii.eqb_refl, starts_with_refl. reflexivity. Qed.

(** X4.  A request with version "2.0" whose [method] is missing, null or
    any other false value (the empty string, 0, false, an empty array or
    mapping) is answered with the error -32600 "Invalid Request: 'method'
    is required". *)
Theorem method_is_required now r :
  dict_get r "jsonrpc" = Some (VStr "2.0") ->
  truthy (dict_get_default r "method" VNone) = false ->
  exists response,
    handle_request now (VDict r) = Ok response
    /\ error_field response "code" = Some (VInt (-32600))
    /\ error_field response "message"
       = Some (VStr "Invalid Request: 'method' is required")
    /\ dict_has response "result" = false.
Proof.
  intros Hv Hm. unfold handle_request.
  unfold dict_get_default at 1. rewrite Hv. cbn [eq_str].
  rewrite String.eqb_refl, Hm. cbn [negb].
  eexists. split; [reflexivity|]. repeat split.
Qed.

Lemma method_is_required_witness :
  truthy (dict_get_default [("jsonrpc", VStr "2.0"); ("id", VInt 3); ("method", VList [])]
            "method" VNone) = false
  /\ exists response,
       handle_request "2025-06-01T12:00:00.000000"
         (VDict [("jsonrpc", VStr "2.0"); ("id", VInt 3); ("method", VList [])])
       = Ok response
       /\ error_field response "code" = Some (VInt (-32600))
       /\ error_field response "message"
          = Some (VStr "Invalid Request: 'method' is required")
       /\ dict_has response "result" = false.
Proof.
  split; [reflexivity|].
  apply (method_is_required "2025-06-01T12:00:00.000000"
           [("jsonrpc", VStr "2.0"); ("id", VInt 3); ("method", VList [])]);
    reflexivity.
Defined.

(** X5.  Methods are matched exactly: a request with version "2.0" and a
    [method] that is true as a condition but is none of the strings
    "initialize", "tools/list" and "tools/call" (another string, or a
    number, array or mapping) is answered, when its method and its id
    format as strings, with the error -32601 whose message is "Method not
    found: " followed by [str(method)]. *)
Theorem unknown_method_not_found now r method name id :
  dict_get r "jsonrpc" = Some (VStr "2.0") ->
  dict_get r "method" = Some method ->
  truthy method = true ->
  method <> VStr "initialize" ->
  method <> VStr "tools/list" ->
  method <> VStr "tools/call" ->
  Repr.str method = Ok name ->
  Repr.str (dict_get_default r "id" VNone) = Ok id ->
  exists response message,
    handle_request now (VDict r) = Ok response
    /\ error_field response "code" = Some (VInt (-32601))
    /\ error_field response "message" = Some (VStr message)
    /\ message = "Method not found: " ++ name
    /\ contains name message = true
    /\ dict_has response "result" = false.
Proof.
  intros Hv Hm Ht H1 H2 H3 Hname Hid.
  rewrite (handle_request_dispatches now r method name id Hv Hm Ht Hname Hid).
  unfold dispatch.
  rewrite (eq_str_false _ _ H1), (eq_str_false _ _ H2), (eq_str_false _ _ H3).
  unfold log. rewrite Hname. cbn [bind caught].
  eexists. exists ("Method not found: " ++ name).
  split; [reflexivity|]. split; [reflexivity|]. split; [reflexivity|].
  split; [reflexivity|]. split; [|reflexivity].
  apply contains_append_r, contains_refl.
Qed.

Lemma unknown_method_not_found_witness :
  exists response message,
    handle_request "2025-06-01T12:00:00.000000"
      (VDict [("jsonrpc", VStr "2.0"); ("id", VInt 3); ("method", VStr "foo/bar")])
    = Ok response
    /\ error_field response "code" = Some (VInt (-32601))
    /\ error_field response "message" = Some (VStr message)
    /\ message = "Method not found: foo/bar"
    /\ contains "foo/bar" message = true
    /\ dict_has response "result" = false.
Proof.
  apply (unknown_method_not_found "2025-06-01T12:00:00.000000"
           [("jsonrpc", VStr "2.0"); ("id", VInt 3); ("method", VStr "foo/bar")]
           (VStr "foo/bar") "foo/bar" "3");
    try reflexivity; discriminate.
Defined.

(** X6.  [tools/list] never looks at its params: whatever they are, a
    mapping or not, the response to a request whose id formats as a string
    is a success whose result lists the tools, and the only name listed is
    "add_numbers". *)
Theorem tools_list_ignores_params now r id :
  dict_get r "jsonrpc" = Some (VStr "2.0") ->
  dict_get r "method" = Some (VStr "tools/list") ->
  Repr.str (dict_get_default r "id" VNone) = Ok id ->
  exists response,
    handle_request now (VDict r) = Ok response
    /\ dict_has response "error" = false
    /\ result_field response "tools" = Some tools
    /\ listed_names tools = [VStr "add_numbers"].
Proof.
  intros Hv Hm Hid.
  rewrite (handle_request_dispatches now r _ "tools/list" id Hv Hm eq_refl
             eq_refl Hid).
  eexists. split; [reflexivity|]. repeat split.
Qed.

Lemma tools_list_ignores_params_witness :
  exists response,
    handle_request "2025-06-01T12:00:00.000000"
      (VDict [("jsonrpc", VStr "2.0"); ("method", VStr "tools/list");
              ("params", VStr "anything")])
    = Ok response
    /\ dict_has response "error" = false
    /\ result_field response "tools" = Some tools
    /\ listed_names tools = [VStr "add_numbers"].
Proof.
  apply (tools_list_ignores_params "2025-06-01T12:00:00.000000"
           [("jsonrpc", VStr "2.0"); ("method", VStr "tools/list");
            ("params", VStr "anything")] "None"); reflexivity.
Defined.

(** X7.  A [tools/call] request whose id formats as a string is answered
    with -32602 "Invalid params: must be an object" when its [params] is
    present and not a mapping (null included), and with -32602 "Invalid
    params: 'name' is required" when [params] is absent (it defaults to the
    empty mapping) or is a mapping whose [name] is missing, null or
    otherwise false. *)
Theorem tools_call_invalid_params now r id :
  dict_get r "jsonrpc" = Some (VStr "2.0") ->
  dict_get r "method" = Some (VStr "tools/call") ->
  Repr.str (dict_get_default r "id" VNone) = Ok id ->
  (forall params,
     dict_get r "params" = Some params ->
     is_dict params = false ->
     exists response,
       handle_request now (VDict r) = Ok response
       /\ error_field response "code" = Some (VInt (-32602))
       /\ error_field response "message"
          = Some (VStr "Invalid params: must be an object"))
  /\ (forall p,
        dict_get_default r "params" (VDict []) = VDict p ->
        truthy (dict_get_default p "name" VNone) = false ->
        exists response,
          handle_request now (VDict r) = Ok response
          /\ error_field response "code" = Some (VInt (-32602))
          /\ error_field response "message"
             = Some (VStr "Invalid params: 'name' is required")).
Proof.
  intros Hv Hm Hid.
  rewrite (handle_request_dispatches now r _ "tools/call" id Hv Hm eq_refl
             eq_refl Hid).
  unfold dispatch. cbn [eq_str String.eqb Ascii.eqb Bool.eqb].
  split.
  - intros params Hp Hnd. unfold dict_get_default at 3. rewrite Hp.
    destruct params; try discriminate Hnd;
      (eexists; split; [reflexivity|]; split; reflexivity).
  - intros p Hp Hname. rewrite Hp. unfold handle_tools_call.
    rewrite Hname. cbn [negb caught].
    eexists. split; [reflexivity|]. split; reflexivity.
Qed.

Lemma tools_call_invalid_params_witness :
  is_dict VNone = false
  /\ exists response,
       handle_request "2025-06-01T12:00:00.000000"
         (VDict [("jsonrpc", VStr "2.0"); ("id", VInt 4);
                 ("method", VStr "tools/call"); ("params", VNone)])
       = Ok response
       /\ error_field response "code" = Some (VInt (-32602))
       /\ error_field response "message"
          = Some (VStr "Invalid params: must be an object").
Proof.
  split; [reflexivity|].
  destruct (tools_call_invalid_params "2025-06-01T12:00:00.000000"
              [("jsonrpc", VStr "2.0"); ("id", VInt 4);
               ("method", VStr "tools/call"); ("params", VNone)] "4"
              eq_refl eq_refl eq_refl) as (Hnot & _).
  exact (Hnot VNone eq_refl eq_refl).
Defined.

(** A [tools/call] without params: the name is reported missing. *)
Example tools_call_without_params :
  exists response,
    handle_request "2025-06-01T12:00:00.000000"
      (VDict [("jsonrpc", VStr "2.0"); ("id", VInt 4); ("method", VStr "tools/call")])
    = Ok response
    /\ error_field response "message"
       = Some (VStr "Invalid params: 'name' is required").
Proof. eexists. split; reflexivity. Qed.

(** A call of a tool other than "add_numbers": the name is formatted for
    the log, then for the message of the response. *)
Lemma handle_tools_call_unknown now request_id p name :
  dict_get p "name" = Some name ->
  truthy name = true ->
  name <> VStr "add_numbers" ->
  handle_tools_call now request_id (VDict p)
  = (text <- Repr.str name ;;
     Ok (create_response request_id VNone
           (Some [("code", VInt (-32601));
                  ("message", VStr ("Unknown tool: " ++ text))]))).
Proof.
  intros Hname Ht Hneq.
  assert (Hn : dict_get_default p "name" VNone = name)
    by (unfold dict_get_default; rewrite Hname; reflexivity).
  rewrite handle_tools_call_named by (rewrite Hn; exact Ht).
  rewrite Hn. destruct (Repr.str name) as [text|e] eqn:Hs; [|reflexivity].
  unfold call_tool. rewrite (eq_str_false _ _ Hneq), Hs. reflexivity.
Qed.

(** X8.  A [tools/call] whose [name] is true as a condition, is not the
    string "add_numbers" and formats as a string is answered with the error
    -32601 "Unknown tool: " followed by [str(name)]; the arguments are not
    looked at, so this holds for arguments of any shape.  When the name
    does not format, [handle_tools_call] raises the exception of the
    formatting. *)
Theorem unknown_tool now request_id p name :
  dict_get p "name" = Some name ->
  truthy name = true ->
  name <> VStr "add_numbers" ->
  (forall text,
     Repr.str name = Ok text ->
     exists response,
       handle_tools_call now request_id (VDict p) = Ok response
       /\ error_field response "code" = Some (VInt (-32601))
       /\ error_field response "message"
          = Some (VStr ("Unknown tool: " ++ text))
       /\ dict_has response "result" = false)
  /\ (forall e,
        Repr.str name = Raise e ->
        handle_tools_call now request_id (VDict p) = Raise e).
Proof.
  intros Hname Ht Hneq.
  rewrite (handle_tools_call_unknown now request_id p name Hname Ht Hneq).
  split.
  - intros text Hs. rewrite Hs. cbn [bind].
    eexists. split; [reflexivity|]. repeat split.
  - intros e Hs. rewrite Hs. reflexivity.
Qed.

Lemma unknown_tool_witness :
  exists response,
    handle_tools_call "2025-06-01T12:00:00.000000" (VInt 1)
      (VDict [("name", VStr "subtract"); ("arguments", VInt 5)]) = Ok response
    /\ error_field response "code" = Some (VInt (-32601))
    /\ error_field response "message" = Some (VStr "Unknown tool: subtract")
    /\ dict_has response "result" = false.
Proof.
  destruct (unknown_tool "2025-06-01T12:00:00.000000" (VInt 1)
              [("name", VStr "subtract"); ("arguments", VInt 5)] (VStr "subtract")
              eq_refl eq_refl ltac:(discriminate)) as [H _].
  exact (H "subtract" eq_refl).
Defined.

(** X9.  Listing and calling agree: a response of [tools/call] is "Unknown
    tool" (-32601) exactly for the names that [tools/list] does not
    advertise. *)
Theorem listed_tools_are_callable now request_id p name response :
  dict_get p "name" = Some name ->
  truthy name = true ->
  handle_tools_call now request_id (VDict p) = Ok response ->
  error_field response "code" = Some (VInt (-32601))
  <-> ~ In name (listed_names tools).
Proof.
  intros Hname Ht.
  destruct (eq_str name "add_numbers") eqn:E.
  - apply eq_str_true in E. subst name.
    assert (Hn : dict_get_default p "name" VNone = VStr "add_numbers")
      by (unfold dict_get_default; rewrite Hname; reflexivity).
    rewrite handle_tools_call_named by (rewrite Hn; reflexivity).
    rewrite Hn. cbn [Repr.str]. unfold call_tool. cbn [eq_str].
    rewrite String.eqb_refl.
    assert (Hin : In (VStr "add_numbers") (listed_names tools))
      by (left; reflexivity).
    repeat case_step; cbn [caught]; intros [= <-];
      (split; [intros H; discriminate H | intros H; destruct (H Hin)]).
  - assert (Hneq : name <> VStr "add_numbers").
    { intros ->. cbn in E. discriminate E. }
    rewrite (handle_tools_call_unknown now request_id p name Hname Ht Hneq).
    destruct (Repr.str name) as [text|e]; cbn [bind]; [|discriminate].
    intros [= <-]. split; [|intros _; reflexivity].
    intros _ Hin. cbn in Hin. destruct Hin as [H|[]]. congruence.
Qed.

Lemma listed_tools_are_callable_witness :
  exists response,
    handle_tools_call "2025-06-01T12:00:00.000000" (VInt 1)
      (VDict [("name", VStr "add_numbers")]) = Ok response
    /\ (error_field response "code" = Some (VInt (-32601))
        <-> ~ In (VStr "add_numbers") (listed_names tools)).
Proof.
  eexists. split; [reflexivity|].
  apply (listed_tools_are_callable "2025-06-01T12:00:00.000000" (VInt 1)
           [("name", VStr "add_numbers")] (VStr "add_numbers")); reflexivity.
Defined.

(** X10.  The handlers raise in three cases only: [initialize] with params
    that is not a mapping, where [params.get] raises [AttributeError];
    [tools/call] with a name that is true as a condition and does not
    format as a string, where the message logged before the [try] raises;
    and a method that is none of the three and does not format, where the
    message of the warning raises. *)
Theorem dispatch_raises_iff now method request_id params e :
  dispatch now method request_id params = Raise e
  <-> (method = VStr "initialize"
       /\ is_dict params = false
       /\ e = AttributeError
                ("'" ++ type_name params ++ "' object has no attribute 'get'"))
      \/ (method = VStr "tools/call"
          /\ exists p,
               params = VDict p
               /\ truthy (dict_get_default p "name" VNone) = true
               /\ Repr.str (dict_get_default p "name" VNone) = Raise e)
      \/ (method <> VStr "initialize"
          /\ method <> VStr "tools/list"
          /\ method <> VStr "tools/call"
          /\ Repr.str method = Raise e).
Proof.
  unfold dispatch. split.
  - destruct (eq_str method "initialize") eqn:E1.
    { apply eq_str_true in E1. left. revert H. unfold handle_initialize.
      destruct params; cbn [py_get bind];
        try (intros [= <-]; repeat split; assumption).
      destruct (negb _); discriminate. }
    destruct (eq_str method "tools/list") eqn:E2; [discriminate|].
    destruct (eq_str method "tools/call") eqn:E3.
    { apply eq_str_true in E3. right; left. split; [exact E3|].
      destruct params; try discriminate H.
      destruct (truthy (dict_get_default d "name" VNone)) eqn:Hname.
      - rewrite (handle_tools_call_named now request_id d Hname) in H.
        destruct (Repr.str _) eqn:Hs; [discriminate H|].
        injection H as <-. exists d. auto.
      - unfold handle_tools_call in H. rewrite Hname in H. discriminate H. }
    right; right.
    assert (forall s, eq_str method s = false -> method <> VStr s) as Hne.
    { intros s Hs ->. cbn in Hs. rewrite String.eqb_refl in Hs. discriminate. }
    repeat split; auto.
    revert H. unfold log. destruct (Repr.str method); cbn [bind];
      [discriminate | congruence].
  - intros [(-> & Hnd & ->) | [(-> & p & -> & Hname & Hs) | (H1 & H2 & H3 & Hs)]].
    + cbn [eq_str]. rewrite String.eqb_refl.
      destruct params; try discriminate Hnd; reflexivity.
    + cbn [eq_str String.eqb Ascii.eqb Bool.eqb].
      rewrite (handle_tools_call_named now request_id p Hname), Hs. reflexivity.
    + rewrite (eq_str_false _ _ H1), (eq_str_false _ _ H2), (eq_str_false _ _ H3).
      unfold log. rewrite Hs. reflexivity.
Qed.

(** X11.  An [initialize] request whose params is present and not a
    mapping, and whose id formats as a string, is answered with the error
    -32603, whose message is "Internal error: " followed by the message of
    the [AttributeError]. *)
Theorem initialize_params_not_a_mapping now r params id :
  dict_get r "jsonrpc" = Some (VStr "2.0") ->
  dict_get r "method" = Some (VStr "initialize") ->
  dict_get r "params" = Some params ->
  is_dict params = false ->
  Repr.str (dict_get_default r "id" VNone) = Ok id ->
  exists response,
    handle_request now (VDict r) = Ok response
    /\ error_field response "code" = Some (VInt (-32603))
    /\ error_field response "message"
       = Some (VStr ("Internal error: '" ++ type_name params
                       ++ "' object has no attribute 'get'"))
    /\ dict_has response "result" = false.
Proof.
  intros Hv Hm Hp Hnd Hid.
  rewrite (handle_request_dispatches now r _ "initialize" id Hv Hm eq_refl
             eq_refl Hid).
  unfold dict_get_default at 3. rewrite Hp.
  unfold dispatch. cbn [eq_str]. rewrite String.eqb_refl.
  destruct params; try discriminate Hnd;
    (eexists; split; [reflexivity|]; repeat split).
Qed.

Lemma initialize_params_not_a_mapping_witness :
  is_dict (VList [VStr "2024-11-05"]) = false
  /\ exists response,
       handle_request "2025-06-01T12:00:00.000000"
         (VDict [("jsonrpc", VStr "2.0"); ("id", VInt 1);
                 ("method", VStr "initialize");
                 ("params", VList [VStr "2024-11-05"])])
       = Ok response
       /\ error_field response "code" = Some (VInt (-32603))
       /\ error_field response "message"
          = Some (VStr "Internal error: 'list' object has no attribute 'get'")
       /\ dict_has response "result" = false.
Proof.
  split; [reflexivity|].
  apply (initialize_params_not_a_mapping "2025-06-01T12:00:00.000000"
           [("jsonrpc", VStr "2.0"); ("id", VInt 1);
            ("method", VStr "initialize");
            ("params", VList [VStr "2024-11-05"])]
           (VList [VStr "2024-11-05"]) "1"); reflexivity.
Defined.

(* ===================================================================== *)
(** * Further properties of [add_numbers] *)
(* ===================================================================== *)

Lemma of_int_raise n e :
  F64.of_int n = Raise e ->
  e = OverflowError "int too large to convert to float".
Proof.
  unfold F64.of_int.
  destruct (binary_normalize _ _ _ _ _); intros [=]; congruence.
Qed.

(** [float(v)] raises [ValueError] or [TypeError], or [OverflowError] for
    an [int]. *)
Lemma py_float_raise v e :
  py_float v = Raise e ->
  value_or_type_error e = true
  \/ exists n, v = VInt n /\ F64.of_int n = Raise e.
Proof.
  destruct v as [|b|n|x|s|l|d]; cbn [py_float].
  - intros [= <-]. left; reflexivity.
  - destruct b; vm_compute; discriminate.
  - right. eauto.
  - discriminate.
  - destruct (F64.of_string s); intros [= <-]. left; reflexivity.
  - intros [= <-]. left; reflexivity.
  - intros [= <-]. left; reflexivity.
Qed.

Lemma add_numbers_raises now a b e :
  add_numbers now a b = Raise e ->
  (exists n, a = VInt n /\ F64.of_int n = Raise e)
  \/ (convertible a = true /\ exists n, b = VInt n /\ F64.of_int n = Raise e).
Proof.
  unfold add_numbers, convertible.
  destruct (py_float a) as [n1|e1] eqn:Ea; cbn [bind try_except].
  - destruct (py_float b) as [n2|e2] eqn:Eb; cbn [bind try_except].
    + destruct (F64.is_integer _) eqn:Ei; cbn [bind try_except];
        [|discriminate].
      destruct (to_int_exact _ Ei) as (z & -> & _). discriminate.
    + destruct (py_float_raise _ _ Eb) as [H|H].
      * rewrite H. discriminate.
      * destruct (value_or_type_error e2); [discriminate|].
        intros [= <-]. right. auto.
  - destruct (py_float_raise _ _ Ea) as [H|H].
    + rewrite H. discriminate.
    + destruct (value_or_type_error e1); [discriminate|].
      intros [= <-]. left. exact H.
Qed.

(** X12.  [add_numbers] handles every failure of its conversions but one:
    when it raises, the exception is the [OverflowError] "int too large to
    convert to float", raised by [float] on an argument that is an [int],
    either the first argument, or the second after the first converted.
    It raises no other exception. *)
Theorem add_numbers_raises_only_overflow now a b e :
  add_numbers now a b = Raise e ->
  e = OverflowError "int too large to convert to float"
  /\ ((exists n, a = VInt n /\ F64.of_int n = Raise e)
      \/ (convertible a = true /\ exists n, b = VInt n /\ F64.of_int n = Raise e)).
Proof.
  intros H. apply add_numbers_raises in H. split; [|exact H].
  destruct H as [(n & _ & H) | (_ & n & _ & H)]; exact (of_int_raise _ _ H).
Qed.

Lemma add_numbers_raises_only_overflow_witness :
  add_numbers "2025-06-01T12:00:00.000000" (VFloat two_and_a_half)
    (VInt (2 ^ 1024))
  = Raise (OverflowError "int too large to convert to float")
  /\ convertible (VFloat two_and_a_half) = true
  /\ F64.of_int (2 ^ 1024)
     = Raise (OverflowError "int too large to convert to float").
Proof.
  assert (H : add_numbers "2025-06-01T12:00:00.000000" (VFloat two_and_a_half)
                (VInt (2 ^ 1024))
              = Raise (OverflowError "int too large to convert to float"))
    by (vm_compute; reflexivity).
  split; [exact H|].
  destruct (add_numbers_raises_only_overflow _ _ _ _ H)
    as [_ [(n & Hn & _) | (Hc & n & Hn & Hr)]]; [discriminate Hn|].
  injection Hn as <-. auto.
Defined.

(** X13.  What [add_numbers] returns, when it returns, always has the keys
    number1, number2, operation (always "addition") and timestamp (the
    clock reading), and exactly one of result and error.  It has error
    exactly when a conversion raised [ValueError] or [TypeError]; then
    number1 and number2 are the arguments as they were given. *)
Theorem add_numbers_calculation_shape now a b calc :
  add_numbers now a b = Ok calc ->
  dict_get calc "operation" = Some (VStr "addition")
  /\ dict_get calc "timestamp" = Some (VStr now)
  /\ dict_has calc "number1" = true
  /\ dict_has calc "number2" = true
  /\ dict_has calc "error" = negb (dict_has calc "result")
  /\ (dict_has calc "error" = true
      <-> unparseable a = true \/ (convertible a = true /\ unparseable b = true))
  /\ (dict_has calc "error" = true ->
      dict_get calc "number1" = Some a /\ dict_get calc "number2" = Some b).
Proof.
  intros H.
  assert (Hcases :
    (exists n1 n2 r, calc = calculation now n1 n2 r
                     /\ convertible a = true /\ convertible b = true)
    \/ (exists e, calc = failed_calculation now a b e
                  /\ (unparseable a = true
                      \/ (convertible a = true /\ unparseable b = true)))).
  { revert H. unfold add_numbers, convertible, unparseable.
    destruct (py_float a) as [n1|e1]; cbn [bind try_except].
    2: { destruct (value_or_type_error e1); intros [= <-].
         right; exists e1; split; [reflexivity | left; reflexivity]. }
    destruct (py_float b) as [n2|e2]; cbn [bind try_except].
    2: { destruct (value_or_type_error e2); intros [= <-].
         right; exists e2; split; [reflexivity | right; split; reflexivity]. }
    destruct (F64.is_integer _) eqn:Ei; cbn [bind try_except].
    2: { intros [= <-]. left; do 3 eexists; repeat split. }
    destruct (to_int_exact _ Ei) as (z & -> & _). cbn [bind try_except].
    intros [= <-]. left; do 3 eexists; repeat split. }
  destruct Hcases as [(n1 & n2 & r & -> & Ha & Hb) | (e & -> & Hbad)].
  - repeat split; try reflexivity; try discriminate.
    intros [Hu | [_ Hu]]; revert Ha Hb Hu; unfold convertible, unparseable;
      destruct (py_float a), (py_float b); discriminate.
  - repeat split; try reflexivity; auto.
Qed.

Lemma add_numbers_calculation_shape_witness :
  exists calc,
    add_numbers "2025-06-01T12:00:00.000000" (VStr "abc") VNone = Ok calc
    /\ dict_has calc "error" = true
    /\ dict_has calc "result" = false
    /\ dict_get calc "number1" = Some (VStr "abc")
    /\ dict_get calc "number2" = Some VNone.
Proof.
  assert (H : exists calc,
             add_numbers "2025-06-01T12:00:00.000000" (VStr "abc") VNone = Ok calc)
    by (eexists; vm_compute; reflexivity).
  destruct H as [calc H]. exists calc. split; [exact H|].
  destruct (add_numbers_calculation_shape _ _ _ _ H)
    as (_ & _ & _ & _ & Hx & Hiff & Hraw).
  assert (He : dict_has calc "error" = true).
  { apply Hiff. left. vm_compute. reflexivity. }
  rewrite He in Hx. destruct (Hraw He) as [H1 H2].
  destruct (dict_has calc "result"); [discriminate Hx|]. auto.
Defined.

(* ===================================================================== *)
(** * Integer arithmetic through floats *)
(* ===================================================================== *)

Lemma digits2_pos_bits p : Zpos (digits2_pos p) = bits (Zpos p).
Proof.
  unfold bits. induction p as [p IH|p IH|]; cbn [digits2_pos].
  - rewrite Pos2Z.inj_succ, IH. unfold bits.
    change (Zpos p~1) with (2 * Zpos p + 1). rewrite Z.log2_succ_double by lia. lia.
  - rewrite Pos2Z.inj_succ, IH. unfold bits.
    change (Zpos p~0) with (2 * Zpos p). rewrite Z.log2_double by lia. lia.
  - reflexivity.
Qed.

Lemma bits_mul_pow2 n k : 0 < n -> 0 <= k -> bits (n * 2 ^ k) = bits n + k.
Proof. intros. unfold bits. rewrite Z.log2_mul_pow2 by lia. lia. Qed.

Lemma bits_le n b : 0 < n -> 0 <= b -> (n < 2 ^ b <-> bits n <= b).
Proof.
  intros Hn Hb. unfold bits. rewrite (Z.log2_lt_pow2 n b Hn). lia.
Qed.

Lemma bits_pos n : 0 < n -> 1 <= bits n.
Proof. intros. unfold bits. pose proof (Z.log2_nonneg n). lia. Qed.

Lemma shr_1_double m :
  0 < m -> shr_1 (Build_shr_record (2 * m) false false) = Build_shr_record m false false.
Proof. destruct m; try lia. reflexivity. Qed.

Lemma iter_shr_exact p : forall c j,
  0 < c -> 0 <= j ->
  iter_pos shr_1 p (Build_shr_record (c * 2 ^ (j + Zpos p)) false false)
  = Build_shr_record (c * 2 ^ j) false false.
Proof.
  induction p as [p IH|p IH|]; intros c j Hc Hj; cbn [iter_pos].
  - replace (c * 2 ^ (j + Zpos p~1)) with (2 * (c * 2 ^ ((j + Zpos p) + Zpos p))).
    + rewrite shr_1_double by (apply Z.mul_pos_pos; [lia | apply Z.pow_pos_nonneg; lia]).
      rewrite IH by lia. apply IH; lia.
    + rewrite Pos2Z.inj_xI. replace (j + (2 * Zpos p + 1)) with (Z.succ (j + Zpos p + Zpos p)) by lia.
      rewrite Z.pow_succ_r by lia. lia.
  - replace (j + Zpos p~0) with ((j + Zpos p) + Zpos p) by lia.
    rewrite IH by lia. apply IH; lia.
  - replace (c * 2 ^ (j + 1)) with (2 * (c * 2 ^ j)).
    + apply shr_1_double. apply Z.mul_pos_pos; [lia | apply Z.pow_pos_nonneg; lia].
    + rewrite Z.pow_add_r by lia. lia.
Qed.

Lemma fexp_small d : 1 <= d -> fexp 53 1024 d = d - 53.
Proof. intros. unfold fexp, emin. lia. Qed.

(** Rounding an integer below [2^53], given with [k] extra binary zeros at
    exponent [- k], is exact. *)
Lemma binary_round_aux_exact neg n k :
  0 < n < 2 ^ 53 -> 53 - bits n <= k ->
  binary_round_aux 53 1024 neg (n * 2 ^ k) (- k) loc_Exact = canonical neg n.
Proof.
  intros Hn Hk.
  assert (Hb : 1 <= bits n <= 53).
  { split; [apply bits_pos; lia | apply bits_le; lia]. }
  assert (H0 : 0 <= k) by lia.
  assert (Hp : 0 < n * 2 ^ (53 - bits n)).
  { apply Z.mul_pos_pos; [lia | apply Z.pow_pos_nonneg; lia]. }
  assert (Hd : forall j, 0 <= j -> Zdigits2 (n * 2 ^ j) = bits n + j).
  { intros j Hj. assert (0 < n * 2 ^ j) by (apply Z.mul_pos_pos; [lia | apply Z.pow_pos_nonneg; lia]).
    destruct (n * 2 ^ j) as [|q|q] eqn:E; try lia.
    cbn [Zdigits2]. rewrite digits2_pos_bits, <- E. apply bits_mul_pow2; lia. }
  unfold binary_round_aux.
  assert (H1 : shr_fexp 53 1024 (n * 2 ^ k) (- k) loc_Exact
               = (Build_shr_record (n * 2 ^ (53 - bits n)) false false, bits n - 53)).
  { unfold shr_fexp. rewrite Hd by lia.
    replace (bits n + k + - k) with (bits n) by lia.
    rewrite fexp_small by lia. cbn [shr_record_of_loc].
    destruct (bits n - 53 - - k) as [|q|q] eqn:E; try lia; cbn [shr].
    - f_equal; [|lia]. do 2 f_equal. f_equal. lia.
    - f_equal; [|lia].
      replace k with ((53 - bits n) + Zpos q) by lia.
      apply iter_shr_exact; lia. }
  rewrite H1. cbn [shr_m loc_of_shr_record round_nearest_even].
  assert (H2 : shr_fexp 53 1024 (n * 2 ^ (53 - bits n)) (bits n - 53) loc_Exact
               = (Build_shr_record (n * 2 ^ (53 - bits n)) false false, bits n - 53)).
  { unfold shr_fexp. rewrite Hd by lia.
    replace (bits n + (53 - bits n) + (bits n - 53)) with (bits n) by lia.
    rewrite fexp_small by lia. rewrite Z.sub_diag. reflexivity. }
  rewrite H2. cbn [shr_m].
  unfold canonical.
  destruct (n * 2 ^ (53 - bits n)) as [|q|q] eqn:E; try lia.
  replace (bits n - 53 <=? 1024 - 53) with true by (symmetry; apply Z.leb_le; lia).
  reflexivity.
Qed.

Lemma iter_xO_value m d : Zpos (Pos.iter xO m d) = Zpos m * 2 ^ Zpos d.
Proof.
  change (Pos.iter xO m d) with (shift_pos d m).
  rewrite shift_pos_correct, Zpower_pos_nat, Zpower_nat_Z, positive_nat_Z. lia.
Qed.

Lemma shl_align_value m e e' :
  e' <= e -> shl_align m e e' = (Z.to_pos (Zpos m * 2 ^ (e - e')), e').
Proof.
  intros H. unfold shl_align.
  destruct (e' - e) as [|d|d] eqn:E; try lia.
  - replace (e - e') with 0 by lia. replace e' with e by lia.
    rewrite Z.mul_1_r. reflexivity.
  - replace (e - e') with (Zpos d) by lia.
    rewrite <- iter_xO_value. reflexivity.
Qed.

Lemma binary_round_exact neg M n k :
  0 < n < 2 ^ 53 -> 0 <= k -> Zpos M = n * 2 ^ k ->
  binary_round 53 1024 neg M (- k) = canonical neg n.
Proof.
  intros Hn Hk HM.
  assert (Hb : 1 <= bits n <= 53).
  { split; [apply bits_pos; lia | apply bits_le; lia]. }
  unfold binary_round.
  rewrite digits2_pos_bits, HM, bits_mul_pow2 by lia.
  replace (bits n + k + - k) with (bits n) by lia.
  rewrite fexp_small by lia.
  destruct (Z_lt_le_dec (- k) (bits n - 53)) as [Hlt|Hle].
  - unfold shl_align.
    destruct (bits n - 53 - - k) as [|d|d] eqn:E; try lia.
    rewrite HM. apply binary_round_aux_exact; lia.
  - rewrite shl_align_value by lia.
    rewrite HM, <- Z.mul_assoc, <- Z.pow_add_r by lia.
    rewrite Z2Pos.id.
    + replace (bits n - 53) with (- (k + (- k - (bits n - 53)))) at 2 by lia.
      apply binary_round_aux_exact; lia.
    + apply Z.mul_pos_pos; [lia | apply Z.pow_pos_nonneg; lia].
Qed.

Lemma binary_normalize_exact z k :
  Z.abs z < 2 ^ 53 -> 0 <= k ->
  binary_normalize 53 1024 (z * 2 ^ k) (- k) false = float_of_int z.
Proof.
  intros Hz Hk.
  assert (Hp : 0 < 2 ^ k) by (apply Z.pow_pos_nonneg; lia).
  destruct z as [|p|p].
  - reflexivity.
  - assert (0 < Zpos p * 2 ^ k) by lia.
    destruct (Zpos p * 2 ^ k) as [|M|M] eqn:E; try lia.
    cbn [binary_normalize float_of_int]. apply binary_round_exact; lia.
  - assert (Zneg p * 2 ^ k < 0) by (apply Z.mul_neg_pos; lia).
    destruct (Zneg p * 2 ^ k) as [|M|M] eqn:E; try lia.
    cbn [binary_normalize float_of_int]. apply binary_round_exact; lia.
Qed.

Lemma float_of_int_nonzero n :
  n <> 0 ->
  float_of_int n
  = S754_finite (n <? 0) (Z.to_pos (Z.abs n * 2 ^ (53 - bits (Z.abs n))))
      (bits (Z.abs n) - 53).
Proof. destruct n; [congruence | reflexivity | reflexivity]. Qed.

(** The signed mantissa of [float_of_int n], aligned at exponent [e]. *)
Lemma aligned_mantissa n e :
  n <> 0 -> Z.abs n < 2 ^ 53 -> e <= bits (Z.abs n) - 53 ->
  cond_Zopp (n <? 0)
    (Zpos (fst (shl_align (Z.to_pos (Z.abs n * 2 ^ (53 - bits (Z.abs n))))
                  (bits (Z.abs n) - 53) e)))
  = n * 2 ^ (- e).
Proof.
  intros Hn Hlt He.
  assert (Hb : 1 <= bits (Z.abs n) <= 53).
  { split; [apply bits_pos; lia | apply bits_le; lia]. }
  assert (Hp : 0 < Z.abs n * 2 ^ (53 - bits (Z.abs n))).
  { apply Z.mul_pos_pos; [lia | apply Z.pow_pos_nonneg; lia]. }
  rewrite shl_align_value by lia. cbn [fst].
  rewrite !Z2Pos.id by lia.
  rewrite <- Z.mul_assoc, <- Z.pow_add_r by lia.
  replace (53 - bits (Z.abs n) + (bits (Z.abs n) - 53 - e)) with (- e) by lia.
  destruct (Z.ltb_spec n 0); cbn [cond_Zopp]; lia.
Qed.

(** Float addition is exact on integers whose sum stays below [2^53]. *)
Lemma add_float_of_int a b :
  Z.abs a < 2 ^ 53 -> Z.abs b < 2 ^ 53 -> Z.abs (a + b) < 2 ^ 53 ->
  F64.add (float_of_int a) (float_of_int b) = float_of_int (a + b).
Proof.
  intros Ha Hb Hab.
  destruct (Z.eq_dec a 0) as [->|Na].
  { cbn [float_of_int Z.add]. destruct b; reflexivity. }
  destruct (Z.eq_dec b 0) as [->|Nb].
  { rewrite Z.add_0_r. destruct a; reflexivity. }
  rewrite (float_of_int_nonzero a Na), (float_of_int_nonzero b Nb).
  unfold F64.add. cbn [SFadd].
  assert (1 <= bits (Z.abs a) <= 53)
    by (split; [apply bits_pos; lia | apply bits_le; lia]).
  assert (1 <= bits (Z.abs b) <= 53)
    by (split; [apply bits_pos; lia | apply bits_le; lia]).
  rewrite (aligned_mantissa a) by lia.
  rewrite (aligned_mantissa b) by lia.
  rewrite <- Z.mul_add_distr_r.
  match goal with
  | |- binary_normalize _ _ (_ * 2 ^ (- ?e)) ?e _ = _ =>
      replace e with (- - e) at 2 by lia
  end.
  apply binary_normalize_exact; lia.
Qed.

Lemma of_int_exact n :
  Z.abs n < 2 ^ 53 -> F64.of_int n = Ok (float_of_int n).
Proof.
  intros Hn. unfold F64.of_int, F64.prec, F64.emax.
  pose proof (binary_normalize_exact n 0 Hn (Z.le_refl 0)) as H.
  change (2 ^ 0) with 1 in H. change (- 0) with 0 in H.
  rewrite Z.mul_1_r in H. rewrite H.
  destruct n; reflexivity.
Qed.

Lemma float_of_int_value n :
  Z.abs n < 2 ^ 53 -> is_value_of (float_of_int n) n.
Proof.
  intros Hn. destruct (Z.eq_dec n 0) as [->|Nn]; [reflexivity|].
  rewrite (float_of_int_nonzero n Nn). cbn [is_value_of].
  assert (1 <= bits (Z.abs n) <= 53)
    by (split; [apply bits_pos; lia | apply bits_le; lia]).
  assert (0 < Z.abs n * 2 ^ (53 - bits (Z.abs n))).
  { apply Z.mul_pos_pos; [lia | apply Z.pow_pos_nonneg; lia]. }
  rewrite Z2Pos.id by lia.
  rewrite Z.max_r, Z.max_l by lia. rewrite Z.mul_1_r.
  replace (- (bits (Z.abs n) - 53)) with (53 - bits (Z.abs n)) by lia.
  destruct (Z.ltb_spec n 0); cbn [cond_Zopp]; lia.
Qed.

(** X15.  Integers are added exactly: for integers [a] and [b] with
    [|a|], [|b|] and [|a + b|] below [2^53], [add_numbers(a, b)] returns a
    calculation without error whose result is the integer [a + b].  The
    conversion to float and back loses nothing in that range. *)
Theorem add_numbers_exact_on_integers now a b :
  Z.abs a < 2 ^ 53 -> Z.abs b < 2 ^ 53 -> Z.abs (a + b) < 2 ^ 53 ->
  exists calc,
    add_numbers now (VInt a) (VInt b) = Ok calc
    /\ dict_get calc "result" = Some (VInt (a + b))
    /\ dict_has calc "error" = false.
Proof.
  intros Ha Hb Hab.
  destruct (add_numbers_converted now (VInt a) (VInt b) _ _
              (of_int_exact a Ha) (of_int_exact b Hb)) as (r & Hcalc & Hr).
  rewrite add_float_of_int in Hr by assumption.
  pose proof (float_of_int_value (a + b) Hab) as Hv.
  destruct (is_value_of_to_int _ _ Hv) as [Hi Ht].
  exists (calculation now (float_of_int a) (float_of_int b) r).
  split; [exact Hcalc|]. split; [|reflexivity].
  destruct Hr as [(z & _ & Hz & ->) | (Hni & _)]; [|congruence].
  apply is_value_of_to_int in Hz. destruct Hz as [_ Hz].
  simpl. congruence.
Qed.

Lemma add_numbers_exact_on_integers_witness :
  Z.abs 9007199254740000 < 2 ^ 53
  /\ Z.abs (-4503599627370497) < 2 ^ 53
  /\ exists calc,
       add_numbers "2025-06-01T12:00:00.000000"
         (VInt 9007199254740000) (VInt (-4503599627370497)) = Ok calc
       /\ dict_get calc "result" = Some (VInt 4503599627369503)
       /\ dict_has calc "error" = false.
Proof.
  assert (Ha : Z.abs 9007199254740000 < 2 ^ 53) by (vm_compute; reflexivity).
  assert (Hb : Z.abs (-4503599627370497) < 2 ^ 53) by (vm_compute; reflexivity).
  split; [exact Ha|]. split; [exact Hb|].
  apply (add_numbers_exact_on_integers "2025-06-01T12:00:00.000000"
           9007199254740000 (-4503599627370497) Ha Hb).
  vm_compute. reflexivity.
Defined.

Lemma add_comm x y : F64.add x y = F64.add y x.
Proof.
  unfold F64.add.
  destruct x as [sx|sx| |sx mx ex], y as [sy|sy| |sy my ey];
    cbn [SFadd]; try reflexivity;
    try (destruct sx, sy; reflexivity).
  rewrite (Z.min_comm ey ex). f_equal. apply Z.add_comm.
Qed.

Lemma normalized_unique s r1 r2 : normalized s r1 -> normalized s r2 -> r1 = r2.
Proof.
  intros [(z1 & I1 & Hz1 & ->) | (I1 & ->)] [(z2 & I2 & Hz2 & ->) | (I2 & ->)];
    try congruence.
  apply is_value_of_to_int in Hz1, Hz2.
  destruct Hz1 as [_ Hz1], Hz2 as [_ Hz2]. congruence.
Qed.

(** X16.  The result of [add_numbers] does not depend on the order of its
    arguments: when both convert, [add_numbers(a, b)] and
    [add_numbers(b, a)] return the same result field. *)
Theorem add_numbers_commutative now a b n1 n2 :
  py_float a = Ok n1 ->
  py_float b = Ok n2 ->
  exists calc1 calc2 r,
    add_numbers now a b = Ok calc1
    /\ add_numbers now b a = Ok calc2
    /\ dict_get calc1 "result" = Some r
    /\ dict_get calc2 "result" = Some r.
Proof.
  intros Ha Hb.
  destruct (add_numbers_converted now a b n1 n2 Ha Hb) as (r1 & H1 & Hr1).
  destruct (add_numbers_converted now b a n2 n1 Hb Ha) as (r2 & H2 & Hr2).
  rewrite (add_comm n2 n1) in Hr2.
  rewrite (normalized_unique _ _ _ Hr2 Hr1) in H2.
  exists (calculation now n1 n2 r1), (calculation now n2 n1 r1), r1.
  repeat split; assumption.
Qed.

Lemma add_numbers_commutative_witness :
  py_float (VStr "0.1") = Ok (S754_finite false 7205759403792794 (-56))
  /\ py_float (VFloat two_and_a_half) = Ok two_and_a_half
  /\ exists calc1 calc2 r,
       add_numbers "2025-06-01T12:00:00.000000" (VStr "0.1")
         (VFloat two_and_a_half) = Ok calc1
       /\ add_numbers "2025-06-01T12:00:00.000000" (VFloat two_and_a_half)
            (VStr "0.1") = Ok calc2
       /\ dict_get calc1 "result" = Some r
       /\ dict_get calc2 "result" = Some r.
Proof.
  assert (H1 : py_float (VStr "0.1")
               = Ok (S754_finite false 7205759403792794 (-56)))
    by (vm_compute; reflexivity).
  assert (H2 : py_float (VFloat two_and_a_half) = Ok two_and_a_half)
    by reflexivity.
  split; [exact H1|]. split; [exact H2|].
  exact (add_numbers_commutative "2025-06-01T12:00:00.000000" _ _ _ _ H1 H2).
Defined.

(* ===================================================================== *)
(** * Formatting a value *)
(* ===================================================================== *)










(* ===================================================================== *)
(** * When [handle_request] returns *)
(* ===================================================================== *)





(* ===================================================================== *)
(** * The transport loop *)
(* ===================================================================== *)

Section TransportProperties.

Variable json_loads : string -> loaded.
Variable json_dumps : bool -> dict -> string.

(** X17.  [main] answers in lock step: it prints exactly one line for
    each line read before the end of input that holds more than white
    space, in the order read, and nothing for the others; what it prints
    for a line depends on that line (stripped) and its clock reading
    only. *)
Theorem main_answers_each_line stdin :
  main json_loads json_dumps stdin
  = map (fun entry =>
           answer_line json_loads json_dumps (snd entry) (strip (fst entry)))
      (filter (fun entry => negb (is_blank entry)) (before_eof stdin)).
Proof.
  induction stdin as [|[line now] rest IH]; cbn [main before_eof].
  - reflexivity.
  - destruct (String.eqb line ""); [reflexivity|].
    cbn [filter]. unfold is_blank at 1. cbn [fst].
    destruct (String.eqb (strip line) ""); cbn [negb map fst snd];
      rewrite IH; reflexivity.
Qed.

(** X19.  A line that is not JSON does not stop the loop: it is answered
    with the hand-built parse error, code -32700 and a null id, and the
    lines after it are handled as if it had not been there. *)
Theorem malformed_line_is_answered_and_skipped line now msg rest :
  line <> "" ->
  strip line <> "" ->
  json_loads (strip line) = DecodeError msg ->
  main json_loads json_dumps ((line, now) :: rest)
  = json_dumps true parse_error_response :: main json_loads json_dumps rest
  /\ dict_get parse_error_response "id" = Some VNone
  /\ error_field parse_error_response "code" = Some (VInt (-32700)).
Proof.
  intros Hline Hstrip Hl. cbn [main].
  apply String.eqb_neq in Hline, Hstrip. rewrite Hline, Hstrip.
  unfold answer_line. rewrite Hl. repeat split.
Qed.

End TransportProperties.

Lemma malformed_line_is_answered_and_skipped_witness :
  strip (String "{" (String "b" (String (chr 10) ""))) = "{b"
  /\ main sample_loads sample_dumps
       [(String "{" (String "b" (String (chr 10) "")), "2025-06-01T12:00:00.000000")]
     = [sample_dumps true parse_error_response].
Proof.
  split; [reflexivity|].
  destruct (malformed_line_is_answered_and_skipped sample_loads
              sample_dumps
              (String "{" (String "b" (String (chr 10) "")))
              "2025-06-01T12:00:00.000000" "Expecting value" [])
    as [H _]; [discriminate | discriminate | reflexivity | exact H].
Defined.

(* ===================================================================== *)
(** * Numbers given as strings *)
(* ===================================================================== *)

Lemma digit_code c : is_digit c = true -> 48 <= code c <= 57.
Proof. unfold is_digit. rewrite andb_true_iff, !Z.leb_le. tauto. Qed.

Lemma digits_value_from acc (t : list ascii) :
  fold_left (fun acc c => 10 * acc + (code c - 48)) t acc
  = acc * 10 ^ Z.of_nat (List.length t) + digits_value t.
Proof.
  unfold digits_value. revert acc.
  induction t as [|c t IH]; intros acc; cbn [fold_left List.length].
  - cbn. lia.
  - rewrite IH, (IH (10 * 0 + (code c - 48))).
    rewrite Nat2Z.inj_succ, Z.pow_succ_r by lia. lia.
Qed.

Lemma digits_value_cons c (t : list ascii) :
  digits_value (c :: t)
  = (code c - 48) * 10 ^ Z.of_nat (List.length t) + digits_value t.
Proof. unfold digits_value at 1. cbn [fold_left]. rewrite digits_value_from. lia. Qed.

Lemma digits_value_nonneg (t : list ascii) :
  forallb is_digit t = true -> 0 <= digits_value t.
Proof.
  induction t as [|c t IH]; cbn [forallb].
  - intros _. cbn. lia.
  - rewrite andb_true_iff. intros [Hc Ht]. apply digit_code in Hc.
    rewrite digits_value_cons. specialize (IH Ht).
    assert (0 <= 10 ^ Z.of_nat (List.length t)) by (apply Z.pow_nonneg; lia).
    nia.
Qed.

(** A digit string without leading zero is at least [10^(length - 1)]. *)
Lemma drop_zeros_bound (t : list ascii) :
  forallb is_digit t = true ->
  drop_zeros t <> [] ->
  10 ^ (Z.of_nat (List.length (drop_zeros t)) - 1) <= digits_value t.
Proof.
  induction t as [|c t IH]; cbn [forallb drop_zeros].
  - congruence.
  - rewrite andb_true_iff. intros [Hc Ht].
    pose proof (digit_code _ Hc) as Hcode.
    pose proof (digits_value_nonneg t Ht) as Hnn.
    rewrite digits_value_cons.
    assert (0 < 10 ^ Z.of_nat (List.length t)) by (apply Z.pow_pos_nonneg; lia).
    destruct (Z.eqb_spec (code c) 48) as [E|E].
    + intros Hne. specialize (IH Ht Hne). nia.
    + intros _. cbn [List.length]. rewrite Nat2Z.inj_succ.
      replace (Z.succ (Z.of_nat (List.length t)) - 1)
        with (Z.of_nat (List.length t)) by lia.
      nia.
Qed.

Lemma few_digits (t : list ascii) :
  forallb is_digit t = true -> digits_value t < 2 ^ 53 ->
  (F64.max_digits <? Z.of_nat (List.length (drop_zeros t))) = false.
Proof.
  intros Ht Hv. apply Z.ltb_ge.
  destruct (drop_zeros t) as [|c t'] eqn:E; [cbn; unfold F64.max_digits; lia|].
  assert (Hne : drop_zeros t <> []) by congruence.
  pose proof (drop_zeros_bound t Ht Hne) as Hb. rewrite E in Hb.
  destruct (Z_le_gt_dec (Z.of_nat (List.length (c :: t'))) 17) as [H|H].
  - unfold F64.max_digits. lia.
  - exfalso.
    assert (10 ^ 16 <= 10 ^ (Z.of_nat (List.length (c :: t')) - 1))
      by (apply Z.pow_le_mono_r; lia).
    assert (2 ^ 53 < 10 ^ 16) by (vm_compute; reflexivity).
    lia.
Qed.

Lemma strip_underscores_digits prev (t : list ascii) :
  code prev <> 95 ->
  forallb is_digit t = true -> F64.strip_underscores prev t = Some t.
Proof.
  revert prev. induction t as [|c t IH]; intros prev Hprev; cbn [forallb F64.strip_underscores].
  - intros _. destruct (Z.eqb_spec (code prev) 95); [contradiction | reflexivity].
  - rewrite andb_true_iff. intros [Hc Ht].
    pose proof (digit_code _ Hc) as Hcode.
    destruct (Z.eqb_spec (code c) 95); [lia|].
    rewrite Hc. cbn [negb]. rewrite andb_false_r.
    rewrite IH by (assumption || lia). reflexivity.
Qed.

Lemma span_digits_all (t : list ascii) :
  forallb is_digit t = true -> span_digits t = (t, []).
Proof.
  induction t as [|c t IH]; cbn [forallb span_digits]; [reflexivity|].
  rewrite andb_true_iff. intros [-> Ht]. rewrite (IH Ht). reflexivity.
Qed.

Lemma digit_not_space c : is_digit c = true -> F64.is_space c = false.
Proof.
  intros H. apply digit_code in H. unfold F64.is_space.
  destruct (Z.leb_spec 9 (code c)), (Z.leb_spec (code c) 13),
    (Z.eqb_spec (code c) 32); try lia; reflexivity.
Qed.

Lemma drop_spaces_digits (t : list ascii) :
  forallb is_digit t = true -> F64.drop_spaces t = t.
Proof.
  destruct t as [|c t]; cbn [forallb F64.drop_spaces]; [reflexivity|].
  rewrite andb_true_iff. intros [Hc _]. rewrite (digit_not_space c Hc). reflexivity.
Qed.

Lemma forallb_rev {A} (f : A -> bool) (t : list A) :
  forallb f (rev t) = forallb f t.
Proof.
  induction t as [|c t IH]; cbn [rev forallb]; [reflexivity|].
  rewrite forallb_app, IH. cbn [forallb]. rewrite andb_true_r. apply andb_comm.
Qed.

Lemma of_decimal_int n :
  0 <= n < 2 ^ 53 -> F64.of_decimal false n 0 = float_of_int n.
Proof.
  intros Hn. destruct n as [|p|p]; try lia; [reflexivity|].
  cbn [F64.of_decimal Z.leb Z.compare cond_Zopp].
  change (10 ^ 0) with 1. rewrite Z.mul_1_r.
  pose proof (binary_normalize_exact (Zpos p) 0) as H.
  change (2 ^ 0) with 1 in H. change (- 0) with 0 in H. rewrite Z.mul_1_r in H.
  apply H; lia.
Qed.

Lemma strtod_digits (t : list ascii) :
  t <> [] -> forallb is_digit t = true -> digits_value t < 2 ^ 53 ->
  F64.strtod t = Some (float_of_int (digits_value t), []).
Proof.
  intros Hne Ht Hv. unfold F64.strtod.
  assert (Hs : F64.take_sign t = (false, t)).
  { destruct t as [|c t']; [congruence|]. cbn [forallb] in Ht.
    apply andb_true_iff in Ht. destruct Ht as [Hc _]. apply digit_code in Hc.
    unfold F64.take_sign.
    destruct (Z.eqb_spec (code c) 45), (Z.eqb_spec (code c) 43); try lia.
    reflexivity. }
  rewrite Hs, (span_digits_all t Ht). rewrite app_nil_r.
  destruct t as [|c t'] eqn:E; [congruence|]. rewrite <- E in *.
  rewrite (few_digits t Ht Hv). cbn [List.length Z.of_nat orb].
  change (F64.max_digits <? 0) with false. cbn iota.
  rewrite Z.sub_0_r.
  rewrite of_decimal_int by (pose proof (digits_value_nonneg t Ht); lia).
  rewrite E. reflexivity.
Qed.

Lemma of_string_digits (t : list ascii) :
  t <> [] -> forallb is_digit t = true -> digits_value t < 2 ^ 53 ->
  F64.of_string (string_of_list_ascii t) = Some (float_of_int (digits_value t)).
Proof.
  intros Hne Ht Hv. unfold F64.of_string.
  rewrite list_ascii_of_string_of_list_ascii.
  assert (Hascii : forallb (fun c => code c <? 128) t = true).
  { apply forallb_forall. intros c Hin.
    rewrite forallb_forall in Ht. specialize (Ht c Hin). apply digit_code in Ht.
    apply Z.ltb_lt. lia. }
  rewrite Hascii.
  rewrite strip_underscores_digits by (assumption || (vm_compute; discriminate)).
  rewrite (drop_spaces_digits t Ht).
  rewrite drop_spaces_digits by (rewrite forallb_rev; exact Ht).
  rewrite rev_involutive.
  rewrite (strtod_digits t Hne Ht Hv). reflexivity.
Qed.

(** X20.  A number may be given as a string: a non-empty string of
    decimal digits denoting an integer below [2^53] converts to the same
    float as that integer, so [add_numbers] returns the same for the string
    as for the integer, in either position, whenever the other argument
    converts. *)
Theorem digit_string_converts_like_int (t : list ascii) :
  t <> [] -> forallb is_digit t = true -> digits_value t < 2 ^ 53 ->
  py_float (VStr (string_of_list_ascii t)) = py_float (VInt (digits_value t))
  /\ forall now other,
       convertible other = true ->
       add_numbers now (VStr (string_of_list_ascii t)) other
       = add_numbers now (VInt (digits_value t)) other
       /\ add_numbers now other (VStr (string_of_list_ascii t))
          = add_numbers now other (VInt (digits_value t)).
Proof.
  intros Hne Ht Hv.
  assert (H : py_float (VStr (string_of_list_ascii t))
              = py_float (VInt (digits_value t))).
  { cbn [py_float]. rewrite (of_string_digits t Hne Ht Hv).
    rewrite of_int_exact; [reflexivity|].
    pose proof (digits_value_nonneg t Ht). lia. }
  split; [exact H|].
  intros now other Hc. unfold add_numbers, convertible in *.
  rewrite H.
  assert (Hok : py_float (VInt (digits_value t)) = Ok (float_of_int (digits_value t))).
  { cbn [py_float]. apply of_int_exact. pose proof (digits_value_nonneg t Ht). lia. }
  rewrite Hok.
  destruct (py_float other) as [x|]; [|discriminate].
  cbn [bind].
  split.
  - destruct (F64.is_integer (F64.add (float_of_int (digits_value t)) x)) eqn:Ei;
      [|reflexivity].
    destruct (to_int_exact _ Ei) as (z & -> & _). reflexivity.
  - destruct (F64.is_integer (F64.add x (float_of_int (digits_value t)))) eqn:Ei;
      [|reflexivity].
    destruct (to_int_exact _ Ei) as (z & -> & _). reflexivity.
Qed.

Lemma digit_string_converts_like_int_witness :
  forallb is_digit (list_ascii_of_string "42") = true
  /\ digits_value (list_ascii_of_string "42") = 42
  /\ convertible (VFloat two_and_a_half) = true
  /\ py_float (VStr "42") = py_float (VInt 42)
  /\ add_numbers "2025-06-01T12:00:00.000000" (VStr "42") (VFloat two_and_a_half)
     = add_numbers "2025-06-01T12:00:00.000000" (VInt 42) (VFloat two_and_a_half).
Proof.
  assert (Hd : forallb is_digit (list_ascii_of_string "42") = true) by reflexivity.
  assert (Hc : convertible (VFloat two_and_a_half) = true) by reflexivity.
  split; [exact Hd|]. split; [reflexivity|]. split; [exact Hc|].
  destruct (digit_string_converts_like_int (list_ascii_of_string "42")
              ltac:(discriminate) Hd ltac:(vm_compute; reflexivity))
    as [Hf Hadd].
  split; [exact Hf|].
  exact (proj1 (Hadd "2025-06-01T12:00:00.000000" (VFloat two_and_a_half) Hc)).
Defined.
